(** * Bubbles: a shallow embedding of [bubbles.cpp]

    The demo has one translation unit: two GLSL shaders held as string
    constants, two shader-build helpers, the bubble generator and the frame
    loop of [main].

    Numbers.  [int] values are integers in [Z].  The counters that the
    program increments ([totalFrames], [frames], the line number [l]) are
    reduced to 32 bits in two's complement after each increment; signed
    overflow is undefined in C++, and every statement below about a counter
    stays short of [INT_MAX].  [float] (C++ and GLSL) and [double] values
    are modelled by exact rationals in [Q]: every arithmetic operator of the
    source is kept, rounding is not modelled.  Statements about coordinates,
    radii and frame rates are therefore statements about the exact value of
    the source expressions.

    Effects.  Every call into GLFW, GL, glad and stdio is recorded, in
    order, as an event carrying its arguments and what it returned; what
    the environment returns (driver answers, framebuffer sizes, the clock,
    [rand()]) is an input of the model. *)

From Stdlib Require Import ZArith QArith Qround Qabs Lqa Lia.
From Stdlib Require Import List String Ascii Bool DecimalString.
Import ListNotations.

Local Open Scope Q_scope.

(** ** Numeric types *)

Definition float := Q.
Definition double := Q.

(** [static_cast<float>(int)]. *)
Definition float_of_int (z : Z) : float := inject_Z z.

(** Two's-complement wrap-around of a 32-bit [int]. *)
Definition INT_MIN : Z := (- 2 ^ 31)%Z.
Definition INT_MAX : Z := (2 ^ 31 - 1)%Z.
Definition wrap_int (z : Z) : Z := ((z + 2 ^ 31) mod 2 ^ 32 - 2 ^ 31)%Z.

(** ** The vertex shader [vs] *)

Module GLSL.

Record vec2 := mkVec2 { vx : float; vy : float }.
Record vec3 := mkVec3 { v3x : float; v3y : float; v3z : float }.
Record vec4 := mkVec4 { v4x : float; v4y : float; v4z : float; v4w : float }.

Inductive axis := AxisX | AxisY.

Definition comp (a : axis) (v : vec2) : float :=
  match a with AxisX => vx v | AxisY => vy v end.

(** Component-wise lifting, as GLSL does for vector operands. *)
Definition map1 (f : float -> float) (a : vec2) : vec2 :=
  mkVec2 (f (vx a)) (f (vy a)).
Definition map2 (f : float -> float -> float) (a b : vec2) : vec2 :=
  mkVec2 (f (vx a) (vx b)) (f (vy a) (vy b)).

(** A scalar operand is applied to every component. *)
Definition splat (s : float) : vec2 := mkVec2 s s.

Definition vadd := map2 Qplus.
Definition vsub := map2 Qminus.
Definition vmul := map2 Qmult.

(** GLSL [floor], [mod] and [abs]: [mod(x, y) = x - y * floor(x / y)]. *)
Definition floor (x : float) : float := inject_Z (Qfloor x).
Definition mod_ (x y : float) : float := x - y * floor (x / y).
Definition abs := Qabs.

Definition xy (b : vec3) : vec2 := mkVec2 (v3x b) (v3y b).

(** [vec2((gl_VertexID & 1) == 0 ? -1.0 : 1.0,
          (gl_VertexID & 2) == 0 ? -1.0 : 1.0)] *)
Definition vs_offset (gl_VertexID : Z) : vec2 :=
  mkVec2 (if (Z.land gl_VertexID 1 =? 0)%Z then -(1) else 1)
         (if (Z.land gl_VertexID 2 =? 0)%Z then -(1) else 1).

(** Lines 27-30 of [vs]: the value of [center] after the fold. *)
Definition vs_center (window : vec2) (T : float) (bubble : vec3) (speed : vec2)
  : vec2 :=
  let r := v3z bubble in
  let center := vadd (xy bubble) (vmul speed (splat T)) in
  let span := vsub window (splat (2 * r)) in
  vadd (vsub span
             (map1 abs (vsub span
                             (map2 mod_ (vsub center (splat r))
                                        (vmul span (splat 2))))))
       (splat r).



End GLSL.

(** ** Bubbles and the random source *)

Record Bubble := mkBubble {
  x : float; y : float; r : float;
  dx : float; dy : float;
  color : list float
}.

(** [sizeof(Bubble)], [offsetof(Bubble, dx)], [offsetof(Bubble, color)]:
    nine packed 4-byte floats. *)
Definition sizeof_Bubble : Z := 36.
Definition offsetof_dx : Z := 12.
Definition offsetof_color : Z := 20.

Definition lerp (a b t : float) : float := a + (b - a) * t.

(** The C library's generator: [RAND_MAX] and the values that successive
    calls of [rand()] return.  The state threaded through the generator is
    the number of calls made so far. *)
Record Rand := mkRand { RAND_MAX : Z; rand : nat -> Z }.

Definition frand (g : Rand) (i : nat) : float * nat :=
  (float_of_int (rand g i) / float_of_int (RAND_MAX g), S i).

Definition frand2 (g : Rand) (lo hi : float) (i : nat) : float * nat :=
  let '(t, i) := frand g i in (lerp lo hi t, i).

Definition powf (b : float) (e : Z) : float := b ^ e.

(** The body of the generation loop, lines 200-207. *)
Definition gen_bubble (g : Rand) (i : nat) : Bubble * nat :=
  let '(u, i) := frand g i in
  let r := lerp (1 # 10) (3 # 10) (powf u 4) in
  let '(fx, i) := frand2 g (-(1) + r) (1 - r) i in
  let x := (fx + 1) * 1024 in
  let '(fy, i) := frand2 g (-(1) + r) (1 - r) i in
  let y := (fy + 1) * 1024 in
  let '(ux, i) := frand g i in
  let dx := (ux - (1 # 2)) * (2 # 100) * 1024 in
  let '(uy, i) := frand g i in
  let dy := (uy - (1 # 2)) * (2 # 100) * 1024 in
  let '(c0, i) := frand2 g (1 # 2) 1 i in
  let '(c1, i) := frand2 g (1 # 2) 1 i in
  let '(c2, i) := frand2 g (1 # 2) 1 i in
  let '(c3, i) := frand2 g (3 # 4) 1 i in
  (mkBubble x y (r * 1024) dx dy [c0; c1; c2; c3], i).

(** [for (Bubble& bubble : bubbles)] over an array of [count] records. *)
Fixpoint gen_bubbles (g : Rand) (count : nat) (i : nat) : list Bubble * nat :=
  match count with
  | O => ([], i)
  | S count =>
      let '(b, i) := gen_bubble g i in
      let '(bs, i) := gen_bubbles g count i in
      (b :: bs, i)
  end.

Definition n : Z := 800.

(** The value of the local [r] (line 200) in the pass through the loop body
    whose first draw is call [i]. *)
Definition unit_radius (g : Rand) (i : nat) : float :=
  lerp (1 # 10) (3 # 10) (powf (fst (frand g i)) 4).

(** ** Calls into GLFW, GL and stdio *)

Inductive arg :=
| AInt (z : Z)
| AFloat (q : Q)
| AEnum (name : string)
| AStr (s : string)
| ABubbles (bs : list Bubble)
| ANull.

(** One external call: the function, its arguments, and what it returned
    (return value and out-parameters). *)
Inductive event := Call (fn : string) (args : list arg) (rets : list arg).

Definition trace := list event.

Definition fn_of (e : event) : string := let 'Call f _ _ := e in f.
Definition is_call (f : string) (e : event) : bool := String.eqb (fn_of e) f.
Definition calls (f : string) (t : trace) : trace := filter (is_call f) t.

(** The most recent call of [f] in a trace. *)
Definition last_call (f : string) (t : trace) : option event :=
  find (is_call f) (rev t).

(** ** [printf] formatting: the directives the program uses *)

Open Scope string_scope.
Open Scope list_scope.

Definition dec (z : Z) : string := NilZero.string_of_int (Z.to_int z).

Fixpoint repeat_char (c : ascii) (k : nat) : string :=
  match k with O => "" | S k => String c (repeat_char c k) end.

(** Right-justify in a field of width [w]. *)
Definition pad (c : ascii) (w : nat) (s : string) : string :=
  (repeat_char c (w - String.length s) ++ s)%string.

(** [%f]: six decimals, nearest, ties to even. *)
Definition fixed6 (q : Q) : string :=
  let scaled := (Qabs q * inject_Z 1000000)%Q in
  let fl := Qfloor scaled in
  let m := match ((scaled - inject_Z fl) ?= (1 # 2))%Q with
           | Lt => fl
           | Gt => (fl + 1)%Z
           | Eq => if Z.even fl then fl else (fl + 1)%Z
           end in
  ((if (Qnum q <? 0)%Z then "-" else "") ++
   dec (m / 1000000) ++ "." ++ pad "0" 6 (dec (m mod 1000000)))%string.

Definition digit_of (c : ascii) : option nat :=
  let k := nat_of_ascii c in
  if ((48 <=? k) && (k <=? 57))%nat then Some (k - 48)%nat else None.

(** [width = None]: copying text.  [width = Some w]: after a [%], with
    field width [w] read so far. *)
Fixpoint format (width : option nat) (fmt : string) (args : list arg) : string :=
  match fmt with
  | EmptyString => ""
  | String c fmt =>
      match width with
      | None =>
          if Ascii.eqb c "%" then format (Some O) fmt args
          else String c (format None fmt args)
      | Some w =>
          match digit_of c with
          | Some d => format (Some (10 * w + d)%nat) fmt args
          | None =>
              match args with
              | AInt z :: args =>
                  if Ascii.eqb c "i" then (pad " " w (dec z) ++ format None fmt args)%string
                  else ""
              | AStr s :: args =>
                  if Ascii.eqb c "s" then (pad " " w s ++ format None fmt args)%string
                  else ""
              | AFloat q :: args =>
                  if Ascii.eqb c "f" then (pad " " w (fixed6 q) ++ format None fmt args)%string
                  else ""
              | _ => ""
              end
          end
      end
  end.

Definition sprintf := format None.

(** What one call writes to [stdout] / [stderr]. *)
Definition stdout_of (e : event) : string :=
  let 'Call f args _ := e in
  if String.eqb f "printf" then
    match args with
    | AStr fmt :: args => sprintf fmt args
    | _ => ""
    end
  else "".

Definition stderr_of (e : event) : string :=
  let 'Call f args _ := e in
  if String.eqb f "fprintf" then
    match args with
    | AEnum stream :: AStr fmt :: args =>
        if String.eqb stream "stderr" then sprintf fmt args else ""
    | _ => ""
    end
  else "".

Definition stdout_text (t : trace) : string :=
  fold_right (fun e acc => (stdout_of e ++ acc)%string) "" t.
Definition stderr_text (t : trace) : string :=
  fold_right (fun e acc => (stderr_of e ++ acc)%string) "" t.

(** ** The embedded shader sources *)

Definition vs : string := "#version 310 es
precision highp float;
uniform vec2 window;
uniform float T;
layout(location=0) in vec3 bubble;
layout(location=1) in vec2 speed;
layout(location=2) in vec4 incolor;
out vec2 coord;
out vec4 color;
void main() {
    vec2 offset = vec2((gl_VertexID & 1) == 0 ? -1.0 : 1.0, (gl_VertexID & 2) == 0 ? -1.0 : 1.0);
    coord = offset;
    color = incolor;
    float r = bubble.z;
    vec2 center = bubble.xy + speed * T;
    vec2 span = window - 2.0 * r;
    center = span - abs(span - mod(center - r, span * 2.0)) + r;
    gl_Position.xy = (center + offset * r) * 2.0 / window - 1.0;
    gl_Position.zw = vec2(0, 1);
}".

Definition fs : string := "#version 310 es
precision mediump float;

in vec2 coord;
in vec4 color;

layout(binding=0, r32ui) uniform highp coherent writeonly uimage2D framebuffer;

void main() {
    ivec2 pixelCoord = ivec2(floor(gl_FragCoord.xy));
    float f = coord.x * coord.x + coord.y * coord.y - 1.0;
    float coverage = clamp(.5 - f/fwidth(f), 0.0, 1.0);
    vec4 s = vec4(color.rgb, 1) * (color.a * mix(.25, 1.0, dot(coord, coord)) * coverage);
    imageStore(framebuffer, pixelCoord, uvec4(packUnorm4x8(s)));
}".

(** ** Control flow: a trace of calls, and an early [return] from [main] *)

Inductive result (A : Type) :=
| Continue (a : A)
| Return (status : Z).
Arguments Continue {A} a.
Arguments Return {A} status.

Definition M (A : Type) : Type := trace * result A.

Definition ret {A} (a : A) : M A := ([], Continue a).

Definition bind {A B} (m : M A) (k : A -> M B) : M B :=
  match m with
  | (t, Continue a) => let '(t', res) := k a in (t ++ t', res)
  | (t, Return status) => (t, Return status)
  end.

Definition return_ {A} (status : Z) : M A := ([], Return status).

(** A call whose results the environment supplies. *)
Definition call (fn : string) (args rets : list arg) : M unit :=
  ([Call fn args rets], Continue tt).

Notation "x <- m ;; k" := (bind m (fun x => k))
  (at level 61, m at next level, right associativity).
Notation "m ;; k" := (bind m (fun _ => k))
  (at level 61, right associativity).

(** Falling off the end of [main] returns 0. *)
Definition exit_status {A} (m : M A) : Z :=
  match snd m with Continue _ => 0%Z | Return status => status end.

(** ** What the environment answers during setup *)

Record Env := mkEnv {
  glfwInit_ret : Z;
  glfwCreateWindow_ret : Z;
  gladLoadGLES2Loader_ret : Z;
  glGetString_ret : string -> string;
  glCreateProgram_ret : Z;
  glCreateShader_ret : string -> Z;
  compile_status : Z -> Z;
  shader_info_log : Z -> string;
  link_status : Z -> Z;
  program_info_log : Z -> string;
  glGetUniformLocation_ret : string -> Z;
  glGenBuffers_ret : Z;
  blitFBO_ret : Z;
  renderFBO_ret : Z;
  libc_rand : Rand;
  now_ret : double
}.

Definition GL_FALSE : Z := 0.

(** The successive results of [std::getline(stream, lineStr, '\n')] until it
    fails: a final line needs no terminator, and nothing follows a final
    terminator. *)
Fixpoint getlines (s : string) : list string :=
  match s with
  | EmptyString => []
  | String c s =>
      if Ascii.eqb c "010" then "" :: getlines s
      else match getlines s with
           | [] => [String c ""]
           | l :: ls => String c l :: ls
           end
  end.

(** [while (std::getline(...)) fprintf(stderr, "%4i| %s\n", l++, ...)] *)
Fixpoint print_lines (l : Z) (lines : list string) : M unit :=
  match lines with
  | [] => ret tt
  | lineStr :: lines =>
      call "fprintf" [AEnum "stderr"; AStr "%4i| %s
"; AInt l; AStr lineStr] [] ;;
      print_lines (wrap_int (l + 1)) lines
  end.

Definition info_log_length (log : string) : Z :=
  Z.of_nat (String.length log) + 1.

Definition compile_and_attach_shader (env : Env)
    (program : Z) (type : string) (source : string) : M bool :=
  let shader := glCreateShader_ret env type in
  call "glCreateShader" [AEnum type] [AInt shader] ;;
  call "glShaderSource" [AInt shader; AInt 1; AStr source; ANull] [] ;;
  call "glCompileShader" [AInt shader] [] ;;
  let isCompiled := compile_status env shader in
  call "glGetShaderiv" [AInt shader; AEnum "GL_COMPILE_STATUS"] [AInt isCompiled] ;;
  if (isCompiled =? GL_FALSE)%Z then
    let infoLog := shader_info_log env shader in
    let maxLength := info_log_length infoLog in
    call "glGetShaderiv" [AInt shader; AEnum "GL_INFO_LOG_LENGTH"] [AInt maxLength] ;;
    call "glGetShaderInfoLog" [AInt shader; AInt maxLength] [AInt maxLength; AStr infoLog] ;;
    call "fprintf" [AEnum "stderr"; AStr "Failed to compile shader
"] [] ;;
    print_lines 1 (getlines source) ;;
    call "fprintf" [AEnum "stderr"; AStr "%s
"; AStr infoLog] [] ;;
    call "fflush" [AEnum "stderr"] [] ;;
    call "glDeleteShader" [AInt shader] [] ;;
    ret false
  else
    call "glAttachShader" [AInt program; AInt shader] [] ;;
    call "glDeleteShader" [AInt shader] [] ;;
    ret true.

Definition link_program (env : Env) (program : Z) : M bool :=
  call "glLinkProgram" [AInt program] [] ;;
  let isLinked := link_status env program in
  call "glGetProgramiv" [AInt program; AEnum "GL_LINK_STATUS"] [AInt isLinked] ;;
  if (isLinked =? GL_FALSE)%Z then
    let infoLog := program_info_log env program in
    let maxLength := info_log_length infoLog in
    call "glGetProgramiv" [AInt program; AEnum "GL_INFO_LOG_LENGTH"] [AInt maxLength] ;;
    call "glGetProgramInfoLog" [AInt program; AInt maxLength] [AInt maxLength; AStr infoLog] ;;
    call "fprintf" [AEnum "stderr"; AStr "Failed to link program %s
"; AStr infoLog] [] ;;
    call "fflush" [AEnum "stderr"] [] ;;
    ret false
  else
    ret true.

Definition W : Z := 2048.
Definition H : Z := 2048.

(** ** Backend selection, lines 124-147 *)

Definition init_hint (platform : string) : M unit :=
  call "glfwInitHint" [AEnum "GLFW_ANGLE_PLATFORM_TYPE"; AEnum platform] [].

(** The body of [for (int i = 1; i < argc; i++)], over [argv[1..]]. *)
Fixpoint scan_args (args : list string) : M unit :=
  match args with
  | [] => ret tt
  | a :: args =>
      (if String.eqb a "--gl" then init_hint "GLFW_ANGLE_PLATFORM_TYPE_OPENGL"
       else if String.eqb a "--gles" then init_hint "GLFW_ANGLE_PLATFORM_TYPE_OPENGLES"
       else if String.eqb a "--d3d" then init_hint "GLFW_ANGLE_PLATFORM_TYPE_D3D11"
       else if String.eqb a "--vk" then init_hint "GLFW_ANGLE_PLATFORM_TYPE_VULKAN"
       else if String.eqb a "--mtl" then init_hint "GLFW_ANGLE_PLATFORM_TYPE_METAL"
       else ret tt) ;;
      scan_args args
  end.

Definition select_backend (argv : list string) : M unit :=
  init_hint "GLFW_ANGLE_PLATFORM_TYPE_VULKAN" ;;
  scan_args (skipn 1 argv).

(** ** The frame loop, lines 248-312 *)

(** What the environment answers in one iteration: the framebuffer size,
    the texture name [glGenTextures] would hand out, and the clock. *)
Record FrameInput := mkFrameInput {
  fb_width : Z;
  fb_height : Z;
  glGenTextures_ret : Z;
  now_end : double
}.

(** Locals of [main] that the loop reads but never assigns. *)
Record Locals := mkLocals {
  window : Z;
  uniformWindow : Z;
  uniformT : Z;
  blitFBO : Z;
  renderFBO : Z
}.

(** Locals of [main] that the loop assigns. *)
Record LoopState := mkLoopState {
  tex : Z;
  totalFrames : Z;
  frames : Z;
  start : double;
  lastWidth : Z;
  lastHeight : Z
}.

(** [glfwWindowShouldClose(window)] and what it answered. *)
Definition should_close (c : Locals) (answer : Z) : event :=
  Call "glfwWindowShouldClose" [AInt (window c)] [AInt answer].

(** [glDrawArraysInstanced(GL_TRIANGLE_STRIP, 0, 4, n)] *)
Definition draw_call : event :=
  Call "glDrawArraysInstanced" [AEnum "GL_TRIANGLE_STRIP"; AInt 0; AInt 4; AInt n] [].

Definition size_changed (st : LoopState) (inp : FrameInput) : bool :=
  negb (lastWidth st =? fb_width inp)%Z || negb (lastHeight st =? fb_height inp)%Z.

(** Lines 259-278, the body of [if (lastWidth != width || lastHeight != height)]. *)
Definition resize (c : Locals) (st : LoopState) (inp : FrameInput)
  : trace * LoopState :=
  let width := fb_width inp in
  let height := fb_height inp in
  let tex' := glGenTextures_ret inp in
  ([ Call "printf" [AStr "rendering %i bubbles at %i x %i
"; AInt n; AInt width; AInt height] [];
     Call "glViewport" [AInt 0; AInt 0; AInt width; AInt height] [];
     Call "glUniform2f" [AInt (uniformWindow c);
                         AFloat (float_of_int width); AFloat (float_of_int height)] [];
     Call "glDeleteTextures" [AInt 1; AInt (tex st)] [];
     Call "glGenTextures" [AInt 1] [AInt tex'];
     Call "glBindTexture" [AEnum "GL_TEXTURE_2D"; AInt tex'] [];
     Call "glTexStorage2D" [AEnum "GL_TEXTURE_2D"; AInt 1; AEnum "GL_RGBA8";
                            AInt width; AInt height] [];
     Call "glBindFramebuffer" [AEnum "GL_FRAMEBUFFER"; AInt (blitFBO c)] [];
     Call "glFramebufferTexture2D" [AEnum "GL_FRAMEBUFFER"; AEnum "GL_COLOR_ATTACHMENT0";
                                    AEnum "GL_TEXTURE_2D"; AInt tex'; AInt 0] [];
     Call "glBindFramebuffer" [AEnum "GL_FRAMEBUFFER"; AInt (renderFBO c)] [];
     Call "glDrawBuffers" [AInt 0; ANull] [];
     Call "glFramebufferParameteri" [AEnum "GL_DRAW_FRAMEBUFFER";
                                     AEnum "GL_FRAMEBUFFER_DEFAULT_WIDTH"; AInt width] [];
     Call "glFramebufferParameteri" [AEnum "GL_DRAW_FRAMEBUFFER";
                                     AEnum "GL_FRAMEBUFFER_DEFAULT_HEIGHT"; AInt height] [];
     Call "glBindImageTexture" [AInt 0; AInt tex'; AInt 0; AEnum "GL_FALSE"; AInt 0;
                                AEnum "GL_WRITE_ONLY"; AEnum "GL_R32UI"] [] ],
   mkLoopState tex' (totalFrames st) (frames st) (start st) width height).

(** Lines 281-298: draw into the image, blit, present.  [totalFrames++] hands
    the value before the increment to [glUniform1f]. *)
Definition draw_and_present (c : Locals) (st : LoopState) (inp : FrameInput)
  : trace * LoopState :=
  let width := fb_width inp in
  let height := fb_height inp in
  ([ Call "glBindFramebuffer" [AEnum "GL_FRAMEBUFFER"; AInt (renderFBO c)] [];
     Call "glUniform1f" [AInt (uniformT c); AFloat (float_of_int (totalFrames st))] [];
     draw_call;
     Call "glBindFramebuffer" [AEnum "GL_READ_FRAMEBUFFER"; AInt (blitFBO c)] [];
     Call "glBindFramebuffer" [AEnum "GL_DRAW_FRAMEBUFFER"; AInt 0] [];
     Call "glBlitFramebuffer" [AInt 0; AInt 0; AInt width; AInt height;
                               AInt 0; AInt 0; AInt width; AInt height;
                               AEnum "GL_COLOR_BUFFER_BIT"; AEnum "GL_NEAREST"] [];
     Call "glfwSwapBuffers" [AInt (window c)] [] ],
   mkLoopState (tex st) (wrap_int (totalFrames st + 1)) (frames st) (start st)
               (lastWidth st) (lastHeight st)).

(** Lines 300-309: the frame-rate report. *)
Definition report_fps (st : LoopState) (inp : FrameInput) : trace * LoopState :=
  let frames' := wrap_int (frames st + 1) in
  let end_ := now_end inp in
  let seconds := (end_ - start st)%Q in
  if Qle_bool 2 seconds then
    ([ Call "now" [] [AFloat end_];
       Call "printf" [AStr "%f fps
"; AFloat (float_of_int frames' / seconds)] [];
       Call "fflush" [AEnum "stdout"] [] ],
     mkLoopState (tex st) (totalFrames st) 0 end_ (lastWidth st) (lastHeight st))
  else
    ([ Call "now" [] [AFloat end_] ],
     mkLoopState (tex st) (totalFrames st) frames' (start st)
                 (lastWidth st) (lastHeight st)).

(** [glfwGetFramebufferSize(window, &width, &height)] *)
Definition size_query (c : Locals) (inp : FrameInput) : event :=
  Call "glfwGetFramebufferSize" [AInt (window c)]
       [AInt (fb_width inp); AInt (fb_height inp)].

(** One pass through the body of the [while] loop. *)
Definition frame_step (c : Locals) (st : LoopState) (inp : FrameInput)
  : trace * LoopState :=
  let '(t1, st) := if size_changed st inp then resize c st inp else ([], st) in
  let '(t2, st) := draw_and_present c st inp in
  let '(t3, st) := report_fps st inp in
  (size_query c inp :: t1 ++ t2 ++ t3 ++ [Call "glfwPollEvents" [] []], st).

(** [while (!glfwWindowShouldClose(window))]: one input per iteration that
    runs; the window is then closed. *)
Fixpoint frame_loop (c : Locals) (st : LoopState) (ins : list FrameInput)
  : trace * LoopState :=
  match ins with
  | [] => ([should_close c 1], st)
  | inp :: ins =>
      let '(t, st) := frame_step c st inp in
      let '(t', st) := frame_loop c st ins in
      (should_close c 0 :: t ++ t', st)
  end.

(** The loop locals as lines 248-251 initialise them. *)
Definition initial_state (start : double) : LoopState :=
  mkLoopState 0 0 0 start 0 0.


(** ** [main] *)

Definition window_hint (hint : string) (value : arg) : M unit :=
  call "glfwWindowHint" [AEnum hint; value] [].

Definition print_gl_string (env : Env) (name : string) (fmt : string) : M unit :=
  let s := glGetString_ret env name in
  call "glGetString" [AEnum name] [AStr s] ;;
  call "printf" [AStr fmt; AStr s] [].

Definition vertex_attrib (index size : Z) (normalized : string) (offset : Z) : M unit :=
  call "glEnableVertexAttribArray" [AInt index] [] ;;
  call "glVertexAttribPointer" [AInt index; AInt size; AEnum "GL_FLOAT"; AEnum normalized;
                                AInt sizeof_Bubble; AInt offset] [] ;;
  call "glVertexAttribDivisor" [AInt index; AInt 1] [].

(** Lines 185-312: from program creation to the end of the loop. *)
Definition build_and_run (env : Env) (window : Z) (ins : list FrameInput) : M unit :=
  let program := glCreateProgram_ret env in
  call "glCreateProgram" [] [AInt program] ;;
  failed <-
    (ok <- compile_and_attach_shader env program "GL_VERTEX_SHADER" vs ;;
     if negb ok then ret true else
     ok <- compile_and_attach_shader env program "GL_FRAGMENT_SHADER" fs ;;
     if negb ok then ret true else
     ok <- link_program env program ;;
     ret (negb ok)) ;;
  if (failed : bool) then return_ (-1) else
  call "glUseProgram" [AInt program] [] ;;
  let uniformWindow := glGetUniformLocation_ret env "window" in
  call "glGetUniformLocation" [AInt program; AStr "window"] [AInt uniformWindow] ;;
  let uniformT := glGetUniformLocation_ret env "T" in
  call "glGetUniformLocation" [AInt program; AStr "T"] [AInt uniformT] ;;
  let bubbles := fst (gen_bubbles (libc_rand env) (Z.to_nat n) 0) in
  let bubbleBuff := glGenBuffers_ret env in
  call "glGenBuffers" [AInt 1] [AInt bubbleBuff] ;;
  call "glBindBuffer" [AEnum "GL_ARRAY_BUFFER"; AInt bubbleBuff] [] ;;
  call "glBufferData" [AEnum "GL_ARRAY_BUFFER"; AInt (n * sizeof_Bubble);
                       ABubbles bubbles; AEnum "GL_STATIC_DRAW"] [] ;;
  vertex_attrib 0 3 "GL_FALSE" 0 ;;
  vertex_attrib 1 2 "GL_FALSE" offsetof_dx ;;
  vertex_attrib 2 4 "GL_TRUE" offsetof_color ;;
  let blitFBO := blitFBO_ret env in
  call "glGenFramebuffers" [AInt 1] [AInt blitFBO] ;;
  let renderFBO := renderFBO_ret env in
  call "glGenFramebuffers" [AInt 1] [AInt renderFBO] ;;
  call "glBindFramebuffer" [AEnum "GL_FRAMEBUFFER"; AInt renderFBO] [] ;;
  call "glClearColor" [AFloat (1 # 10); AFloat (1 # 10); AFloat (1 # 10); AFloat (1 # 10)] [] ;;
  call "glDisable" [AEnum "GL_DITHER"] [] ;;
  let start := now_ret env in
  call "now" [] [AFloat start] ;;
  let c := mkLocals window uniformWindow uniformT blitFBO renderFBO in
  (fst (frame_loop c (initial_state start) ins), Continue tt) ;;
  call "glfwTerminate" [] [].

(** Lines 149-183, then the rest. *)
Definition init_and_run (env : Env) (ins : list FrameInput) : M unit :=
  call "glfwInit" [] [AInt (glfwInit_ret env)] ;;
  if (glfwInit_ret env =? 0)%Z then
    call "fprintf" [AEnum "stderr"; AStr "Failed to initialize glfw.
"] [] ;;
    return_ 1
  else
  window_hint "GLFW_CONTEXT_CREATION_API" (AEnum "GLFW_EGL_CONTEXT_API") ;;
  window_hint "GLFW_CLIENT_API" (AEnum "GLFW_OPENGL_ES_API") ;;
  window_hint "GLFW_CONTEXT_VERSION_MAJOR" (AInt 3) ;;
  window_hint "GLFW_CONTEXT_VERSION_MINOR" (AInt 1) ;;
  window_hint "GLFW_OPENGL_PROFILE" (AEnum "GLFW_OPENGL_CORE_PROFILE") ;;
  window_hint "GLFW_SAMPLES" (AInt 0) ;;
  let window := glfwCreateWindow_ret env in
  call "glfwCreateWindow" [AInt W; AInt H; AStr "Rive Bubbles"; ANull; ANull]
       [AInt window] ;;
  if (window =? 0)%Z then
    call "glfwTerminate" [] [] ;;
    call "fprintf" [AEnum "stderr"; AStr "Failed to create window.
"] [] ;;
    return_ (-1)
  else
  call "glfwSetWindowTitle" [AInt window; AStr "Rive Bubbles"] [] ;;
  call "glfwMakeContextCurrent" [AInt window] [] ;;
  call "glfwSwapInterval" [AInt 0] [] ;;
  call "gladLoadGLES2Loader" [AEnum "glfwGetProcAddress"]
       [AInt (gladLoadGLES2Loader_ret env)] ;;
  if (gladLoadGLES2Loader_ret env =? 0)%Z then
    call "fprintf" [AEnum "stderr"; AStr "Failed to initialize glad.
"] [] ;;
    return_ (-1)
  else
  print_gl_string env "GL_VENDOR" "GL_VENDOR: %s
" ;;
  print_gl_string env "GL_RENDERER" "GL_RENDERER: %s
" ;;
  print_gl_string env "GL_VERSION" "GL_VERSION: %s
" ;;
  call "fflush" [AEnum "stdout"] [] ;;
  build_and_run env window ins.

Definition main (argv : list string) (env : Env) (ins : list FrameInput) : M unit :=
  select_backend argv ;;
  init_and_run env ins.

(** ** Reading a run *)

(** The ANGLE platform in force when [glfwInit] is called: the value of the
    most recent [glfwInitHint(GLFW_ANGLE_PLATFORM_TYPE, _)] before it. *)
Fixpoint hint_at_init (cur : option string) (t : trace) : option string :=
  match t with
  | [] => None
  | Call "glfwInit" _ _ :: _ => cur
  | Call "glfwInitHint" [AEnum "GLFW_ANGLE_PLATFORM_TYPE"; AEnum p] _ :: t =>
      hint_at_init (Some p) t
  | _ :: t => hint_at_init cur t
  end.

Definition resolved_backend (t : trace) : option string := hint_at_init None t.

(** The backends and the flag table, as the specification lists them. *)
Inductive Backend := OpenGL | OpenGLES | Direct3D11 | Vulkan | Metal.

Definition platform_of (b : Backend) : string :=
  match b with
  | OpenGL => "GLFW_ANGLE_PLATFORM_TYPE_OPENGL"
  | OpenGLES => "GLFW_ANGLE_PLATFORM_TYPE_OPENGLES"
  | Direct3D11 => "GLFW_ANGLE_PLATFORM_TYPE_D3D11"
  | Vulkan => "GLFW_ANGLE_PLATFORM_TYPE_VULKAN"
  | Metal => "GLFW_ANGLE_PLATFORM_TYPE_METAL"
  end.

Definition flag_table : list (string * Backend) :=
  [("--gl", OpenGL); ("--gles", OpenGLES); ("--d3d", Direct3D11);
   ("--vk", Vulkan); ("--mtl", Metal)].

Definition flag_backend (a : string) : option Backend :=
  option_map snd (find (fun row => String.eqb a (fst row)) flag_table).

Definition recognized (a : string) : bool :=
  match flag_backend a with Some _ => true | None => false end.

(** The last recognized flag of an argument list, found from its end. *)
Fixpoint last_recognized (args : list string) : option Backend :=
  match args with
  | [] => None
  | a :: args =>
      match last_recognized args with
      | Some b => Some b
      | None => flag_backend a
      end
  end.

Definition spec_backend (args : list string) : Backend :=
  match last_recognized args with Some b => b | None => Vulkan end.





(** The resize announcements among the calls of a trace. *)
Definition is_announcement (e : event) : bool :=
  match e with
  | Call f (AStr fmt :: _) _ =>
      String.eqb f "printf" && String.eqb fmt "rendering %i bubbles at %i x %i
"
  | _ => false
  end.

Definition announcements (t : trace) : trace := filter is_announcement t.

(** The announcement line for a [width] x [height] framebuffer. *)
Definition announcement (width height : Z) : string :=
  ("rendering " ++ dec n ++ " bubbles at " ++ dec width ++ " x " ++ dec height ++ "
")%string.

(** The values handed to [printf("%f fps\n", _)], in order. *)
Fixpoint fps_reports (t : trace) : list double :=
  match t with
  | [] => []
  | Call f [AStr fmt; AFloat v] _ :: t =>
      if String.eqb f "printf" && String.eqb fmt "%f fps
" then v :: fps_reports t else fps_reports t
  | _ :: t => fps_reports t
  end.

(** The values uploaded to the uniform at [location], in order. *)
Fixpoint uploads (location : Z) (t : trace) : list float :=
  match t with
  | [] => []
  | Call f [AInt l; AFloat v] _ :: t =>
      if String.eqb f "glUniform1f" && (l =? location)%Z
      then v :: uploads location t else uploads location t
  | _ :: t => uploads location t
  end.

Definition is_draw : event -> bool := is_call "glDrawArraysInstanced".

(** The calls [pre] made so far have set up an image-store target for the
    framebuffer size observed last: the latest [glTexStorage2D] has that
    size, it was applied to the texture bound last, and that texture is the
    one bound to image unit 0. *)
Definition target_matches (c : Locals) (pre : trace) : Prop :=
  exists width height t,
    last_call "glfwGetFramebufferSize" pre =
      Some (Call "glfwGetFramebufferSize" [AInt (window c)]
                 [AInt width; AInt height]) /\
    last_call "glTexStorage2D" pre =
      Some (Call "glTexStorage2D" [AEnum "GL_TEXTURE_2D"; AInt 1; AEnum "GL_RGBA8";
                                   AInt width; AInt height] []) /\
    last_call "glBindTexture" pre =
      Some (Call "glBindTexture" [AEnum "GL_TEXTURE_2D"; AInt t] []) /\
    last_call "glBindImageTexture" pre =
      Some (Call "glBindImageTexture" [AInt 0; AInt t; AInt 0; AEnum "GL_FALSE"; AInt 0;
                                       AEnum "GL_WRITE_ONLY"; AEnum "GL_R32UI"] []).

(** The loop invariant behind [target_matches]: the latest storage call in
    the history [hist] has the cached size and was applied to [tex], which
    is bound to image unit 0. *)
Definition target_for (st : LoopState) (hist : trace) : Prop :=
  last_call "glTexStorage2D" hist =
    Some (Call "glTexStorage2D" [AEnum "GL_TEXTURE_2D"; AInt 1; AEnum "GL_RGBA8";
                                 AInt (lastWidth st); AInt (lastHeight st)] []) /\
  last_call "glBindTexture" hist =
    Some (Call "glBindTexture" [AEnum "GL_TEXTURE_2D"; AInt (tex st)] []) /\
  last_call "glBindImageTexture" hist =
    Some (Call "glBindImageTexture" [AInt 0; AInt (tex st); AInt 0; AEnum "GL_FALSE";
                                     AInt 0; AEnum "GL_WRITE_ONLY"; AEnum "GL_R32UI"] []).

(** ** Sample inputs *)

(** A linear congruential [rand()] with [RAND_MAX = 2^31 - 1]. *)
Definition sample_rand : Rand :=
  mkRand 2147483647
         (fun i => ((Z.of_nat i * 1103515245 + 12345) mod 2147483648)%Z).

Definition sample_locals : Locals := mkLocals 77 0 1 1 2.

(** A driver that creates program 3 and shaders 4 (vertex) and 5 (fragment),
    with the given compile and link statuses. *)
Definition sample_env (vs_status fs_status link : Z) : Env :=
  mkEnv 1 77 1 (fun _ => "ANGLE") 3
        (fun type => if String.eqb type "GL_VERTEX_SHADER" then 4 else 5)%Z
        (fun shader => if (shader =? 4)%Z then vs_status else fs_status)
        (fun _ => "0:1: syntax error")
        (fun _ => link) (fun _ => "link error")
        (fun name => if String.eqb name "window" then 0 else 1)%Z
        1 1 2 sample_rand 0.

(** ** Vertex attributes and the fragment shader [fs] *)

(** The three per-instance attributes that [glVertexAttribPointer] maps onto
    a [Bubble]: [(x, y, r)] at offset 0, [(dx, dy)] at [offsetof(Bubble, dx)]
    and the four colour floats at [offsetof(Bubble, color)]. *)
Definition bubble_attr (b : Bubble) : GLSL.vec3 := GLSL.mkVec3 (x b) (y b) (r b).
Definition speed_attr (b : Bubble) : GLSL.vec2 := GLSL.mkVec2 (dx b) (dy b).

(** The corner offsets in the order of [gl_VertexID & 3]. *)
Definition corners : list GLSL.vec2 :=
  [GLSL.mkVec2 (-(1)) (-(1)); GLSL.mkVec2 1 (-(1));
   GLSL.mkVec2 (-(1)) 1; GLSL.mkVec2 1 1].

Module Frag.

Import GLSL.

(** GLSL [max], [min], [clamp(x, lo, hi) = min(max(x, lo), hi)],
    [mix(a, b, t) = a * (1 - t) + b * t] and [dot]. *)
Definition max (a b : float) : float := if Qle_bool b a then a else b.
Definition min (a b : float) : float := if Qle_bool a b then a else b.
Definition clamp (v lo hi : float) : float := min (max v lo) hi.
Definition mix (a b t : float) : float := a * (1 - t) + b * t.
Definition dot (a b : vec2) : float := vx a * vx b + vy a * vy b.

(** [float f = coord.x * coord.x + coord.y * coord.y - 1.0]. *)
Definition fs_f (coord : vec2) : float :=
  vx coord * vx coord + vy coord * vy coord - 1.

(** [clamp(.5 - f/fwidth(f), 0.0, 1.0)].  [fw] is the value of [fwidth(f)]
    at the fragment, which the rasteriser derives from the neighbouring
    fragments. *)
Definition fs_coverage (fw : float) (coord : vec2) : float :=
  clamp ((1 # 2) - fs_f coord / fw) 0 1.

(** [vec4(color.rgb, 1) * (color.a * mix(.25, 1.0, dot(coord, coord)) * coverage)]. *)
Definition fs_s (fw : float) (coord : vec2) (color : vec4) : vec4 :=
  let k := v4w color * mix (1 # 4) 1 (dot coord coord) * fs_coverage fw coord in
  mkVec4 (v4x color * k) (v4y color * k) (v4z color * k) (1 * k).

(** [packUnorm4x8]: each component becomes [round(clamp(c, 0, 1) * 255)];
    the first component lands in the low byte.  GLSL leaves the direction
    in which [round] resolves a tie to the implementation. *)
Definition unorm8 (round : float -> Z) (v : float) : Z :=
  round (clamp v 0 1 * 255).

Definition packUnorm4x8 (round : float -> Z) (v : vec4) : Z :=
  Z.lor (unorm8 round (v4x v))
        (Z.lor (Z.shiftl (unorm8 round (v4y v)) 8)
               (Z.lor (Z.shiftl (unorm8 round (v4z v)) 16)
                      (Z.shiftl (unorm8 round (v4w v)) 24))).

(** The one [imageStore] of a fragment: the pixel and the [uvec4] stored. *)
Record store := mkStore { pixelCoord : Z * Z; texel : Z * Z * Z * Z }.

Definition fs_main (round : float -> Z) (fw : float)
    (coord : vec2) (color : vec4) (gl_FragCoord : vec4) : store :=
  let pixelCoord := (Qfloor (v4x gl_FragCoord), Qfloor (v4y gl_FragCoord)) in
  let packed := packUnorm4x8 round (fs_s fw coord color) in
  mkStore pixelCoord (packed, packed, packed, packed).

End Frag.

(** [sample_rand] with the draws of bubble 0 (calls 0 .. 8) replaced by 0. *)
Definition sample_rand' : Rand :=
  mkRand 2147483647
         (fun i => if (i <? 9)%nat then 0%Z
                   else ((Z.of_nat i * 1103515245 + 12345) mod 2147483648)%Z).

(** One admissible [round]: ties go up. *)
Definition round_half_up (v : float) : Z := Qfloor (v + (1 # 2)).

(** ** Reading a whole run of the loop *)

(** The inputs of the iterations that find the framebuffer size changed,
    when the cached size is [(w, h)] on entry. *)
Fixpoint resized (w h : Z) (ins : list FrameInput) : list FrameInput :=
  match ins with
  | [] => []
  | inp :: ins =>
      if negb (w =? fb_width inp)%Z || negb (h =? fb_height inp)%Z
      then inp :: resized (fb_width inp) (fb_height inp) ins
      else resized w h ins
  end.

Definition storage_call (inp : FrameInput) : event :=
  Call "glTexStorage2D" [AEnum "GL_TEXTURE_2D"; AInt 1; AEnum "GL_RGBA8";
                         AInt (fb_width inp); AInt (fb_height inp)] [].

Definition gen_call (inp : FrameInput) : event :=
  Call "glGenTextures" [AInt 1] [AInt (glGenTextures_ret inp)].

Definition delete_call (t : Z) : event :=
  Call "glDeleteTextures" [AInt 1; AInt t] [].

(** The loop's read-only locals as [main] sets them up. *)
Definition locals_of (env : Env) : Locals :=
  mkLocals (glfwCreateWindow_ret env)
           (glGetUniformLocation_ret env "window")
           (glGetUniformLocation_ret env "T")
           (blitFBO_ret env) (renderFBO_ret env).

(** Every step of the setup succeeds. *)
Definition setup_ok (env : Env) : Prop :=
  glfwInit_ret env <> 0%Z /\
  glfwCreateWindow_ret env <> 0%Z /\
  gladLoadGLES2Loader_ret env <> 0%Z /\
  compile_status env (glCreateShader_ret env "GL_VERTEX_SHADER") <> GL_FALSE /\
  compile_status env (glCreateShader_ret env "GL_FRAGMENT_SHADER") <> GL_FALSE /\
  link_status env (glCreateProgram_ret env) <> GL_FALSE.

(** [sample_env] with the given answers of [glfwInit], [glfwCreateWindow]
    and the GL loader. *)
Definition sample_env_init (init window loader : Z) : Env :=
  mkEnv init window loader (fun _ => "ANGLE") 3
        (fun type => if String.eqb type "GL_VERTEX_SHADER" then 4 else 5)%Z
        (fun _ => 1%Z) (fun _ => "") (fun _ => 1%Z) (fun _ => "")
        (fun name => if String.eqb name "window" then 0 else 1)%Z
        1 1 2 sample_rand 0.

(** ** Lines and hints *)

(** Each line followed by a newline. *)
Fixpoint unlines (lines : list string) : string :=
  match lines with
  | [] => ""
  | l :: lines => (l ++ String "010" (unlines lines))%string
  end.

(** The text is empty or ends in a newline. *)
Fixpoint terminated (s : string) : bool :=
  match s with
  | EmptyString => true
  | String ch EmptyString => Ascii.eqb ch "010"
  | String _ s => terminated s
  end.

(** The backends named by the recognized flags of an argument list, in
    order. *)
Definition backends (args : list string) : list Backend :=
  flat_map (fun a => match flag_backend a with Some b => [b] | None => [] end) args.

Definition hint_call (b : Backend) : event :=
  Call "glfwInitHint" [AEnum "GLFW_ANGLE_PLATFORM_TYPE"; AEnum (platform_of b)] [].

(** * Theorems *)

Section FloorFacts.

Lemma Qfloor_unique (x : Q) (z : Z) :
  inject_Z z <= x -> x < inject_Z (z + 1) -> Qfloor x = z.
Proof.
  intros Hlo Hhi.
  apply Z.le_antisymm.
  - apply Qfloor_resp_le in Hlo.
    assert (H : (Qfloor x < z + 1)%Z).
    { rewrite Zlt_Qlt. eapply Qle_lt_trans; [apply Qfloor_le | exact Hhi]. }
    lia.
  - apply Qfloor_resp_le in Hlo. now rewrite Qfloor_Z in Hlo.
Qed.



End FloorFacts.

(** ** The position fold of the vertex shader *)

Section PositionFold.

Import GLSL.



(** The fold on one axis, as line 30 computes each component. *)
Lemma comp_vs_center (a : axis) window T bubble speed :
  comp a (vs_center window T bubble speed) =
  let r := v3z bubble in
  let c := comp a (xy bubble) + comp a speed * T in
  let span := comp a window - 2 * r in
  span - Qabs (span - mod_ (c - r) (span * 2)) + r.
Proof. destruct a; reflexivity. Qed.





End PositionFold.

(** ** Sequencing *)

Section Sequencing.

Lemma bind_call {B} (f : string) (args rets : list arg) (k : unit -> M B) :
  bind (call f args rets) k = (Call f args rets :: fst (k tt), snd (k tt)).
Proof. unfold bind, call. destruct (k tt); reflexivity. Qed.

Lemma bind_ret {A B} (a : A) (k : A -> M B) : bind (ret a) k = k a.
Proof. unfold bind, ret. destruct (k a); reflexivity. Qed.

Lemma bind_continue {A B} (m : M A) (a : A) (k : A -> M B) :
  snd m = Continue a -> bind m k = (fst m ++ fst (k a), snd (k a)).
Proof.
  destruct m as [t res]; simpl; intros ->. destruct (k a); reflexivity.
Qed.

Lemma bind_return {A B} (m : M A) (status : Z) (k : A -> M B) :
  snd m = Return status -> bind m k = (fst m, Return status).
Proof. destruct m as [t res]; simpl; intros ->. reflexivity. Qed.

End Sequencing.

(** ** Backend selection *)

Section BackendSelection.

Lemma flag_backend_cases (a : string) :
  (a = "--gl" /\ flag_backend a = Some OpenGL) \/
  (a = "--gles" /\ flag_backend a = Some OpenGLES) \/
  (a = "--d3d" /\ flag_backend a = Some Direct3D11) \/
  (a = "--vk" /\ flag_backend a = Some Vulkan) \/
  (a = "--mtl" /\ flag_backend a = Some Metal) \/
  (String.eqb a "--gl" = false /\ String.eqb a "--gles" = false /\
   String.eqb a "--d3d" = false /\ String.eqb a "--vk" = false /\
   String.eqb a "--mtl" = false /\ flag_backend a = None).
Proof.
  unfold flag_backend, flag_table, find, fst, snd.
  destruct (String.eqb a "--gl") eqn:E1;
    [apply String.eqb_eq in E1; subst; auto |].
  destruct (String.eqb a "--gles") eqn:E2;
    [apply String.eqb_eq in E2; subst; auto 6 |].
  destruct (String.eqb a "--d3d") eqn:E3;
    [apply String.eqb_eq in E3; subst; auto 6 |].
  destruct (String.eqb a "--vk") eqn:E4;
    [apply String.eqb_eq in E4; subst; auto 6 |].
  destruct (String.eqb a "--mtl") eqn:E5;
    [apply String.eqb_eq in E5; subst; auto 7 |].
  do 5 right. repeat split.
Qed.

Lemma scan_args_continue (args : list string) :
  snd (scan_args args) = Continue tt.
Proof.
  induction args as [| a args IH]; [reflexivity |].
  cbn [scan_args]. unfold init_hint.
  repeat match goal with
  | |- context [if ?b then _ else _] => destruct b
  end;
  rewrite ?bind_call; cbn [bind ret snd fst]; rewrite ?IH;
  destruct (scan_args args); simpl in *; subst; reflexivity.
Qed.

(** Scanning left to right from a selection [cur] ends at the last
    recognized flag, or at [cur] when there is none. *)
Lemma hint_after_scan (args : list string) :
  forall (cur : Backend) (a r : list arg) (rest : trace),
  hint_at_init (Some (platform_of cur))
               (fst (scan_args args) ++ Call "glfwInit" a r :: rest) =
  Some (platform_of
          match last_recognized args with Some b => b | None => cur end).
Proof.
  induction args as [| x args IH]; intros cur a r rest; [reflexivity |].
  cbn [scan_args last_recognized]. unfold init_hint.
  destruct (flag_backend_cases x)
    as [[-> E] | [[-> E] | [[-> E] | [[-> E] | [[-> E] | E]]]]];
    try (rewrite E; cbn [String.eqb Ascii.eqb Bool.eqb];
         rewrite bind_call; cbn [fst app hint_at_init];
         match goal with
         | |- hint_at_init (Some ?p) _ = _ =>
             match p with
             | "GLFW_ANGLE_PLATFORM_TYPE_OPENGL" => change p with (platform_of OpenGL)
             | "GLFW_ANGLE_PLATFORM_TYPE_OPENGLES" => change p with (platform_of OpenGLES)
             | "GLFW_ANGLE_PLATFORM_TYPE_D3D11" => change p with (platform_of Direct3D11)
             | "GLFW_ANGLE_PLATFORM_TYPE_VULKAN" => change p with (platform_of Vulkan)
             | "GLFW_ANGLE_PLATFORM_TYPE_METAL" => change p with (platform_of Metal)
             end
         end;
         rewrite IH; destruct (last_recognized args); reflexivity).
  destruct E as (E1 & E2 & E3 & E4 & E5 & E).
  rewrite E1, E2, E3, E4, E5, E, bind_ret, IH.
  destruct (last_recognized args); reflexivity.
Qed.

Lemma init_and_run_starts (env : Env) (ins : list FrameInput) :
  exists rest,
    fst (init_and_run env ins) = Call "glfwInit" [] [AInt (glfwInit_ret env)] :: rest.
Proof. unfold init_and_run. rewrite bind_call. eexists; reflexivity. Qed.

Lemma main_backend (prog : string) (args : list string) env ins :
  resolved_backend (fst (main (prog :: args) env ins)) =
  Some (platform_of (spec_backend args)).
Proof.
  unfold main, select_backend, init_hint. rewrite bind_call.
  cbn [skipn fst]. rewrite (bind_continue _ tt) by apply scan_args_continue.
  destruct (init_and_run_starts env ins) as [rest ->].
  unfold resolved_backend. cbn [fst hint_at_init].
  change "GLFW_ANGLE_PLATFORM_TYPE_VULKAN" with (platform_of Vulkan).
  apply hint_after_scan.
Qed.

Lemma last_recognized_filter (args : list string) :
  last_recognized (filter recognized args) = last_recognized args.
Proof.
  induction args as [| a args IH]; [reflexivity |].
  cbn [filter last_recognized]. unfold recognized at 1.
  destruct (flag_backend a) eqn:E; cbn [last_recognized]; rewrite IH, ?E;
    destruct (last_recognized args); reflexivity.
Qed.

(** C3. The backend in force at [glfwInit] is the one named by the last
    recognized flag, Vulkan when there is none; arguments that are not
    flags do not change it; [--gl --vk --mtl] selects Metal. *)
Theorem backend_last_flag_wins (prog : string) (args : list string)
    (env : Env) (ins : list FrameInput) :
  resolved_backend (fst (main (prog :: args) env ins)) =
    Some (platform_of (spec_backend args)) /\
  resolved_backend (fst (main (prog :: args) env ins)) =
    resolved_backend (fst (main (prog :: filter recognized args) env ins)) /\
  resolved_backend (fst (main [prog; "--gl"; "--vk"; "--mtl"] env ins)) =
    Some (platform_of Metal) /\
  resolved_backend (fst (main [prog] env ins)) = Some (platform_of Vulkan).
Proof.
  rewrite !main_backend. unfold spec_backend.
  rewrite last_recognized_filter. repeat split.
Qed.

End BackendSelection.

(** ** Bubble generation *)

Section Generation.

Variable g : Rand.
Hypothesis RAND_MAX_pos : (0 < RAND_MAX g)%Z.
Hypothesis rand_range : forall i, (0 <= rand g i <= RAND_MAX g)%Z.

Lemma frand_unit (i : nat) : 0 <= fst (frand g i) /\ fst (frand g i) <= 1.
Proof.
  unfold frand, float_of_int; cbn [fst].
  destruct (rand_range i) as [Hlo Hhi].
  assert (Hm : 0 < inject_Z (RAND_MAX g))
    by (change 0 with (inject_Z 0); now rewrite <- Zlt_Qlt).
  split.
  - apply Qle_shift_div_l; [exact Hm |].
    rewrite Qmult_0_l. change 0 with (inject_Z 0). now rewrite <- Zle_Qle.
  - apply Qle_shift_div_r; [exact Hm |].
    rewrite Qmult_1_l. now rewrite <- Zle_Qle.
Qed.

Lemma powf4_unit (u : float) : 0 <= u -> u <= 1 -> 0 <= powf u 4 /\ powf u 4 <= 1.
Proof.
  intros Hlo Hhi. unfold powf. simpl.
  assert (0 <= u * u /\ u * u <= 1) as [H0 H1] by (split; nra).
  split; nra.
Qed.

Lemma unit_radius_range (i : nat) :
  1 # 10 <= unit_radius g i /\ unit_radius g i <= 3 # 10.
Proof.
  unfold unit_radius, lerp.
  destruct (frand_unit i) as [Hlo Hhi].
  destruct (powf4_unit _ Hlo Hhi) as [Plo Phi].
  set (p := powf _ _) in *. split; lra.
Qed.

Lemma gen_bubble_r (i : nat) :
  r (fst (gen_bubble g i)) = unit_radius g i * 1024.
Proof. reflexivity. Qed.

Lemma gen_bubble_x (i : nat) :
  x (fst (gen_bubble g i)) =
  (lerp (-(1) + unit_radius g i) (1 - unit_radius g i) (fst (frand g (S i))) + 1) * 1024.
Proof. reflexivity. Qed.

Lemma gen_bubble_y (i : nat) :
  y (fst (gen_bubble g i)) =
  (lerp (-(1) + unit_radius g i) (1 - unit_radius g i) (fst (frand g (S (S i)))) + 1) * 1024.
Proof. reflexivity. Qed.

Lemma inset_range (r0 t : float) :
  r0 <= 1 -> 0 <= t -> t <= 1 ->
  0 <= (lerp (-(1) + r0) (1 - r0) t + 1) * 1024 - r0 * 1024 /\
  (lerp (-(1) + r0) (1 - r0) t + 1) * 1024 + r0 * 1024 <= 2048.
Proof.
  intros Hr Ht0 Ht1. unfold lerp.
  assert (0 <= (1 - r0) * t) by nra.
  assert ((1 - r0) * t <= 1 - r0) by nra.
  split; lra.
Qed.


(** Every record of the array is the result of one pass through the loop
    body. *)
Lemma gen_bubbles_In (count i : nat) (b : Bubble) :
  In b (fst (gen_bubbles g count i)) -> exists j, b = fst (gen_bubble g j).
Proof.
  revert i. induction count as [| count IH]; intros i; [intros [] |].
  cbn [gen_bubbles]. destruct (gen_bubble g i) as [b0 j] eqn:E.
  specialize (IH j). destruct (gen_bubbles g count j) as [bs k]. cbn [fst] in *.
  intros [<- | Hin]; [| now apply IH].
  exists i. now rewrite E.
Qed.

Lemma gen_bubbles_head (count i : nat) :
  In (fst (gen_bubble g i)) (fst (gen_bubbles g (S count) i)).
Proof.
  cbn [gen_bubbles]. destruct (gen_bubble g i) as [b j].
  destruct (gen_bubbles g count j). now left.
Qed.

End Generation.





(** ** Shader build failures *)

Section ShaderBuild.

Lemma stderr_text_app (t1 t2 : trace) :
  stderr_text (t1 ++ t2) = (stderr_text t1 ++ stderr_text t2)%string.
Proof.
  induction t1 as [| e t1 IH]; [reflexivity |].
  cbn [app stderr_text fold_right]. fold (stderr_text (t1 ++ t2)).
  fold (stderr_text t1). rewrite IH.
  generalize (stderr_of e) as s. intros s.
  induction s as [| c s IHs]; [reflexivity | simpl; now rewrite IHs].
Qed.

Lemma calls_app (f : string) (t1 t2 : trace) :
  calls f (t1 ++ t2) = calls f t1 ++ calls f t2.
Proof. apply filter_app. Qed.

(** Backend selection only ever calls [glfwInitHint]. *)
Lemma scan_args_quiet (args : list string) :
  stderr_text (fst (scan_args args)) = "" /\
  calls "glfwWindowShouldClose" (fst (scan_args args)) = [] /\
  calls "glDrawArraysInstanced" (fst (scan_args args)) = [].
Proof.
  induction args as [| a args (IH1 & IH2 & IH3)]; [now repeat split |].
  cbn [scan_args]. unfold init_hint.
  repeat match goal with
  | |- context [if ?b then _ else _] => destruct b
  end;
  rewrite ?bind_call, ?bind_ret; cbn [fst]; now repeat split.
Qed.

Lemma select_backend_quiet (argv : list string) :
  snd (select_backend argv) = Continue tt /\
  stderr_text (fst (select_backend argv)) = "" /\
  calls "glfwWindowShouldClose" (fst (select_backend argv)) = [] /\
  calls "glDrawArraysInstanced" (fst (select_backend argv)) = [].
Proof.
  unfold select_backend, init_hint. rewrite bind_call. cbn [fst snd].
  destruct (scan_args_quiet (skipn 1 argv)) as (E1 & E2 & E3).
  split; [apply scan_args_continue | now repeat split].
Qed.












End ShaderBuild.

(** ** The frame loop *)

Section FrameLoop.

Variable c : Locals.

(** One iteration, phase by phase. *)
Lemma frame_step_phases (st : LoopState) (inp : FrameInput) :
  let r1 := if size_changed st inp then resize c st inp else ([], st) in
  let r2 := draw_and_present c (snd r1) inp in
  let r3 := report_fps (snd r2) inp in
  frame_step c st inp =
  (size_query c inp :: fst r1 ++ fst r2 ++ fst r3 ++ [Call "glfwPollEvents" [] []],
   snd r3).
Proof.
  cbv zeta. unfold frame_step, size_query.
  destruct (if size_changed st inp then resize c st inp else ([], st)) as [t1 st1].
  cbn [fst snd]. destruct (draw_and_present c st1 inp) as [t2 st2].
  cbn [fst snd]. destruct (report_fps st2 inp) as [t3 st3]. reflexivity.
Qed.

Lemma wrap_int_small (z : Z) : (INT_MIN <= z <= INT_MAX)%Z -> wrap_int z = z.
Proof.
  unfold INT_MIN, INT_MAX, wrap_int. intros Hz.
  rewrite Z.mod_small; lia.
Qed.




Lemma resize_quiet (st : LoopState) (inp : FrameInput) :
  let r1 := if size_changed st inp then resize c st inp else ([], st) in
  totalFrames (snd r1) = totalFrames st /\
  frames (snd r1) = frames st /\
  start (snd r1) = start st /\
  calls "glUniform1f" (fst r1) = [] /\
  calls "glDrawArraysInstanced" (fst r1) = [] /\
  fps_reports (fst r1) = [].
Proof. cbv zeta. destruct (size_changed st inp); repeat split. Qed.


(** The report touches neither the render target nor the cached size. *)
Lemma report_keeps_target (st : LoopState) (inp : FrameInput) :
  let r3 := report_fps st inp in
  (calls "glTexStorage2D" (fst r3) = [] /\ calls "glGenTextures" (fst r3) = [] /\
   calls "glDeleteTextures" (fst r3) = [] /\ calls "glViewport" (fst r3) = [] /\
   calls "glUniform2f" (fst r3) = [] /\ announcements (fst r3) = []) /\
  tex (snd r3) = tex st /\
  lastWidth (snd r3) = lastWidth st /\ lastHeight (snd r3) = lastHeight st.
Proof. cbv zeta. unfold report_fps. destruct (Qle_bool _ _); repeat split. Qed.

Lemma size_changed_false (st : LoopState) (inp : FrameInput) :
  size_changed st inp = false <->
  lastWidth st = fb_width inp /\ lastHeight st = fb_height inp.
Proof.
  unfold size_changed.
  rewrite orb_false_iff, !negb_false_iff, !Z.eqb_eq. tauto.
Qed.

Lemma size_changed_true (st : LoopState) (inp : FrameInput) :
  size_changed st inp = true <->
  lastWidth st <> fb_width inp \/ lastHeight st <> fb_height inp.
Proof.
  unfold size_changed.
  rewrite orb_true_iff, !negb_true_iff, !Z.eqb_neq. tauto.
Qed.

(** After any iteration the cached size is the size it observed. *)
Lemma frame_step_caches_size (st : LoopState) (inp : FrameInput) :
  lastWidth (snd (frame_step c st inp)) = fb_width inp /\
  lastHeight (snd (frame_step c st inp)) = fb_height inp.
Proof.
  rewrite frame_step_phases. cbv zeta. cbn [snd].
  destruct (report_keeps_target
              (snd (draw_and_present c
                      (snd (if size_changed st inp then resize c st inp else ([], st)))
                      inp)) inp) as (_ & _ & -> & ->).
  destruct (size_changed st inp) eqn:E; [split; reflexivity |].
  now apply size_changed_false in E.
Qed.

(** C8. An iteration that observes the size its predecessor observed
    recreates nothing and announces nothing, and keeps the texture and the
    cached size; an iteration that observes a size other than the cached one
    recreates the target exactly once and prints exactly one announcement
    line, for the new size. *)
Theorem resize_only_on_change :
  (forall (st0 : LoopState) (in1 in2 : FrameInput),
     fb_width in2 = fb_width in1 -> fb_height in2 = fb_height in1 ->
     let st1 := snd (frame_step c st0 in1) in
     let tr2 := fst (frame_step c st1 in2) in
     let st2 := snd (frame_step c st1 in2) in
     (calls "glTexStorage2D" tr2 = [] /\ calls "glGenTextures" tr2 = [] /\
      calls "glDeleteTextures" tr2 = [] /\ calls "glViewport" tr2 = [] /\
      calls "glUniform2f" tr2 = [] /\ announcements tr2 = []) /\
     tex st2 = tex st1 /\
     lastWidth st2 = lastWidth st1 /\ lastHeight st2 = lastHeight st1) /\
  (forall (st : LoopState) (inp : FrameInput),
     lastWidth st <> fb_width inp \/ lastHeight st <> fb_height inp ->
     let tr := fst (frame_step c st inp) in
     let st' := snd (frame_step c st inp) in
     calls "glTexStorage2D" tr =
       [Call "glTexStorage2D" [AEnum "GL_TEXTURE_2D"; AInt 1; AEnum "GL_RGBA8";
                               AInt (fb_width inp); AInt (fb_height inp)] []] /\
     calls "glGenTextures" tr =
       [Call "glGenTextures" [AInt 1] [AInt (glGenTextures_ret inp)]] /\
     calls "glDeleteTextures" tr =
       [Call "glDeleteTextures" [AInt 1; AInt (tex st)] []] /\
     (exists e, announcements tr = [e] /\
                stdout_of e = announcement (fb_width inp) (fb_height inp)) /\
     tex st' = glGenTextures_ret inp /\
     lastWidth st' = fb_width inp /\ lastHeight st' = fb_height inp).
Proof.
  split.
  - intros st0 in1 in2 Hw Hh st1 tr2 st2.
    destruct (frame_step_caches_size st0 in1) as [Ew Eh]. fold st1 in Ew, Eh.
    assert (E : size_changed st1 in2 = false)
      by (apply size_changed_false; split; congruence).
    subst tr2 st2. rewrite frame_step_phases. cbv zeta. rewrite E.
    cbn [fst snd app].
    destruct (report_keeps_target (snd (draw_and_present c st1 in2)) in2)
      as ((H1 & H2 & H3 & H4 & H5 & H6) & Ht & Hlw & Hlh).
    rewrite Ht, Hlw, Hlh.
    set (r3 := report_fps _ in2) in *.
    unfold calls, announcements in *. unfold draw_and_present.
    cbn [fst filter is_call is_announcement fn_of size_query app
         String.eqb Ascii.eqb Bool.eqb andb].
    rewrite !filter_app, H1, H2, H3, H4, H5, H6.
    repeat split.
  - intros st inp Hne tr st'. apply size_changed_true in Hne.
    destruct (frame_step_caches_size st inp) as [Ew Eh].
    subst tr st'. rewrite Ew, Eh. clear Ew Eh.
    rewrite frame_step_phases. cbv zeta. rewrite Hne.
    destruct (report_keeps_target
                (snd (draw_and_present c (snd (resize c st inp)) inp)) inp)
      as ((H1 & H2 & H3 & H4 & H5 & H6) & Ht & Hlw & Hlh).
    cbn [snd]. rewrite Ht.
    set (r3 := report_fps _ inp) in *.
    unfold calls, announcements in *. unfold draw_and_present, resize.
    cbn [fst snd tex filter is_call is_announcement fn_of size_query app
         String.eqb Ascii.eqb Bool.eqb andb].
    rewrite !filter_app, H1, H2, H3, H6.
    repeat split.
    eexists. split; [reflexivity |]. vm_compute. reflexivity.
Qed.



Lemma fps_reports_app (t1 t2 : trace) :
  fps_reports (t1 ++ t2) = fps_reports t1 ++ fps_reports t2.
Proof.
  induction t1 as [| e t1 IH]; [reflexivity |].
  cbn [app fps_reports].
  repeat match goal with
  | |- context [match ?x with _ => _ end] => destruct x
  end; cbn [app]; now rewrite IH.
Qed.

(** What one iteration reports, and what it leaves in the two accumulators. *)
Lemma frame_step_report (st : LoopState) (inp : FrameInput) :
  let seconds := now_end inp - start st in
  let frames' := wrap_int (frames st + 1) in
  fps_reports (fst (frame_step c st inp)) =
    (if Qle_bool 2 seconds then [float_of_int frames' / seconds] else []) /\
  frames (snd (frame_step c st inp)) = (if Qle_bool 2 seconds then 0%Z else frames') /\
  start (snd (frame_step c st inp)) =
    (if Qle_bool 2 seconds then now_end inp else start st).
Proof.
  cbv zeta. rewrite frame_step_phases. cbv zeta. cbn [fst snd].
  destruct (resize_quiet st inp) as (_ & Hf & Hs & _ & _ & Hr).
  set (r1 := if size_changed st inp then resize c st inp else ([], st)) in *.
  change (fps_reports (size_query c inp :: ?t)) with (fps_reports t).
  rewrite !fps_reports_app, Hr.
  unfold report_fps, draw_and_present. cbn [fst snd frames start]. rewrite Hf, Hs.
  destruct (Qle_bool 2 (now_end inp - start st)); repeat split.
Qed.

Lemma frame_loop_cons (st : LoopState) (inp : FrameInput) (ins : list FrameInput) :
  frame_loop c st (inp :: ins) =
  (should_close c 0 ::
     fst (frame_step c st inp) ++ fst (frame_loop c (snd (frame_step c st inp)) ins),
   snd (frame_loop c (snd (frame_step c st inp)) ins)).
Proof.
  cbn [frame_loop]. destruct (frame_step c st inp) as [t st1]. cbn [fst snd].
  destruct (frame_loop c st1 ins). reflexivity.
Qed.

(** Iterations that stay short of two seconds only count; the one that
    reaches two seconds reports the count over the elapsed time. *)
Lemma report_after (inp : FrameInput) (ins : list FrameInput) :
  forall st : LoopState,
  (0 <= frames st)%Z ->
  (frames st + Z.of_nat (List.length ins) + 1 <= INT_MAX)%Z ->
  Forall (fun i => now_end i - start st < 2) ins ->
  2 <= now_end inp - start st ->
  let run := frame_loop c st (ins ++ [inp]) in
  fps_reports (fst run) =
    [float_of_int (frames st + Z.of_nat (List.length ins) + 1) /
     (now_end inp - start st)] /\
  frames (snd run) = 0%Z /\ start (snd run) = now_end inp.
Proof.
  induction ins as [| i ins IH]; intros st Hf Hmax Hall Hend; cbv zeta.
  - cbn [app List.length Z.of_nat] in *. rewrite frame_loop_cons.
    cbn [fst snd frame_loop].
    change (fps_reports (?e :: ?t)) with (fps_reports t) at 1.
    destruct (frame_step_report st inp) as (Hr & Hfr & Hst).
    rewrite fps_reports_app, Hr, Hfr, Hst.
    apply Qle_bool_iff in Hend. rewrite Hend.
    rewrite wrap_int_small by (unfold INT_MIN, INT_MAX in *; lia).
    rewrite Z.add_0_r. repeat split.
  - cbn [app]. rewrite frame_loop_cons. cbn [fst snd].
    change (fps_reports (?e :: ?t)) with (fps_reports t) at 1.
    destruct (frame_step_report st i) as (Hr & Hfr & Hst).
    inversion Hall as [| ? ? Hi Hall']; subst.
    assert (E : Qle_bool 2 (now_end i - start st) = false).
    { destruct (Qle_bool 2 (now_end i - start st)) eqn:E; [| reflexivity].
      apply Qle_bool_iff in E. lra. }
    rewrite E in Hr, Hfr, Hst.
    rewrite wrap_int_small in Hfr by (unfold INT_MIN, INT_MAX in *; lia).
    cbn [List.length] in Hmax. rewrite Nat2Z.inj_succ in Hmax.
    specialize (IH (snd (frame_step c st i))).
    rewrite Hfr, Hst in IH. cbv zeta in IH.
    destruct IH as (IHr & IHf & IHs); [lia | lia | exact Hall' | exact Hend |].
    rewrite fps_reports_app, Hr, IHr, IHf, IHs. cbn [app List.length].
    rewrite Nat2Z.inj_succ.
    replace (frames st + 1 + Z.of_nat (List.length ins) + 1)%Z
      with (frames st + Z.succ (Z.of_nat (List.length ins)) + 1)%Z by lia.
    repeat split.
Qed.

(** C9. An iteration in which two seconds or more have passed since the
    last report prints frames / seconds and resets both accumulators; when
    exactly 2.0 seconds pass over F iterations, the one report of those
    iterations is F / 2. *)
Theorem fps_report_every_two_seconds :
  (forall (st : LoopState) (inp : FrameInput),
     2 <= now_end inp - start st ->
     fps_reports (fst (frame_step c st inp)) =
       [float_of_int (wrap_int (frames st + 1)) / (now_end inp - start st)] /\
     frames (snd (frame_step c st inp)) = 0%Z /\
     start (snd (frame_step c st inp)) = now_end inp) /\
  (forall (st : LoopState) (ins : list FrameInput) (inp : FrameInput),
     let F := (Z.of_nat (List.length ins) + 1)%Z in
     frames st = 0%Z ->
     (F <= INT_MAX)%Z ->
     Forall (fun i => now_end i - start st < 2) ins ->
     now_end inp - start st == 2 ->
     let run := frame_loop c st (ins ++ [inp]) in
     (exists v, fps_reports (fst run) = [v] /\ v == float_of_int F / 2) /\
     frames (snd run) = 0%Z /\ start (snd run) = now_end inp).
Proof.
  split.
  - intros st inp Hend. apply Qle_bool_iff in Hend.
    destruct (frame_step_report st inp) as (Hr & Hf & Hs).
    rewrite Hend in Hr, Hf, Hs. auto.
  - intros st ins inp F Hf Hmax Hall Hend run.
    destruct (report_after inp ins st) as (Hr & Hfr & Hst);
      [lia | subst F; lia | exact Hall | lra |].
    fold run in Hr, Hfr, Hst. rewrite Hf, Z.add_0_l in Hr. fold F in Hr.
    split; [| split; assumption].
    eexists; split; [exact Hr |]. now rewrite Hend.
Qed.

(** *** Every draw finds its target *)

Lemma last_call_app (f : string) (t1 t2 : trace) :
  last_call f (t1 ++ t2) =
  match last_call f t2 with Some e => Some e | None => last_call f t1 end.
Proof.
  unfold last_call. rewrite rev_app_distr.
  induction (rev t2) as [| e l IH]; [reflexivity |].
  cbn [app find]. destruct (is_call f e); [reflexivity | exact IH].
Qed.

Lemma last_call_app_some (f : string) (t1 t2 : trace) (e : event) :
  last_call f t2 = Some e -> last_call f (t1 ++ t2) = Some e.
Proof. intros E. now rewrite last_call_app, E. Qed.

Lemma last_call_app_none (f : string) (t1 t2 : trace) :
  last_call f t2 = None -> last_call f (t1 ++ t2) = last_call f t1.
Proof. intros E. now rewrite last_call_app, E. Qed.

(** Locating an occurrence of a draw in a trace whose draws are known. *)
Lemma split_skip (a b pre post : trace) (d : event) :
  filter is_draw a = [] -> is_draw d = true ->
  a ++ b = pre ++ d :: post ->
  exists pre', pre = a ++ pre' /\ b = pre' ++ d :: post.
Proof.
  revert pre. induction a as [| e a IH]; intros pre Ha Hd E.
  - now exists pre.
  - cbn [filter] in Ha. destruct (is_draw e) eqn:He; [discriminate |].
    destruct pre as [| p pre]; cbn [app] in E; injection E as -> E.
    + congruence.
    + destruct (IH pre Ha Hd E) as (pre' & -> & ->). now exists pre'.
Qed.

Lemma split_first (a b pre post : trace) (x d : event) :
  filter is_draw a = [] -> is_draw d = true ->
  a ++ x :: b = pre ++ d :: post ->
  pre = a \/ exists pre', pre = a ++ x :: pre' /\ b = pre' ++ d :: post.
Proof.
  intros Ha Hd E.
  destruct (split_skip a (x :: b) pre post d Ha Hd E) as (pre' & -> & E').
  destruct pre' as [| p pre']; cbn [app] in E'.
  - left. now rewrite app_nil_r.
  - right. injection E' as <- ->. now exists pre'.
Qed.

(** One iteration, from a history in which the cached target is in place or
    with a size that forces a resize: the calls up to its draw set up a
    matching target, and the invariant holds again afterwards. *)
Lemma report_no_target (st : LoopState) (inp : FrameInput) :
  let t3 := fst (report_fps st inp) ++ [Call "glfwPollEvents" [] []] in
  filter is_draw t3 = [] /\
  last_call "glTexStorage2D" t3 = None /\
  last_call "glBindTexture" t3 = None /\
  last_call "glBindImageTexture" t3 = None /\
  tex (snd (report_fps st inp)) = tex st.
Proof. cbv zeta. unfold report_fps. destruct (Qle_bool _ _); repeat split. Qed.

Lemma step_draw_has_target (st : LoopState) (inp : FrameInput) (hist : trace) :
  target_for st hist \/ size_changed st inp = true ->
  let t := fst (frame_step c st inp) in
  let sc := should_close c 0 in
  exists head tail,
    t = head ++ draw_call :: tail /\
    filter is_draw (sc :: head) = [] /\ filter is_draw tail = [] /\
    target_matches c (hist ++ sc :: head) /\
    target_for (snd (frame_step c st inp)) (hist ++ sc :: t).
Proof.
  intros Hinv. cbv zeta.
  destruct (frame_step_caches_size st inp) as [Ew Eh].
  unfold target_for. rewrite Ew, Eh. clear Ew Eh.
  rewrite frame_step_phases. cbv zeta. cbn [fst snd].
  set (r1 := if size_changed st inp then resize c st inp else ([], st)).
  set (r2 := draw_and_present c (snd r1) inp).
  destruct (report_no_target (snd r2) inp) as (Hd3 & Hs3 & Hb3 & Hi3 & Ht3).
  rewrite Ht3.
  set (t3 := fst (report_fps (snd r2) inp) ++ [Call "glfwPollEvents" [] []]) in *.
  exists (size_query c inp :: fst r1 ++ firstn 2 (fst r2)), (skipn 3 (fst r2) ++ t3).
  assert (Esplit :
    size_query c inp :: fst r1 ++ fst r2 ++ t3 =
    (size_query c inp :: fst r1 ++ firstn 2 (fst r2)) ++
    draw_call :: skipn 3 (fst r2) ++ t3).
  { subst r2. unfold draw_and_present, draw_call.
    cbn [fst firstn skipn app]. rewrite <- app_assoc. reflexivity. }
  split; [exact Esplit |]. rewrite Esplit.
  split; [subst r1 r2; destruct (size_changed st inp); reflexivity |].
  split; [rewrite filter_app, Hd3; reflexivity |].
  assert (Hlast : forall f e,
    last_call f (skipn 3 (fst r2)) = None ->
    last_call f [draw_call] = None ->
    last_call f t3 = None ->
    last_call f (hist ++ should_close c 0 :: size_query c inp ::
                 fst r1 ++ firstn 2 (fst r2)) = Some e ->
    last_call f (hist ++ should_close c 0 ::
                 (size_query c inp :: fst r1 ++ firstn 2 (fst r2)) ++
                 draw_call :: skipn 3 (fst r2) ++ t3) = Some e).
  { intros f e H2 Hdr H3 Hh.
    change (hist ++ should_close c 0 ::
            (size_query c inp :: fst r1 ++ firstn 2 (fst r2)) ++
            draw_call :: skipn 3 (fst r2) ++ t3)
      with (hist ++ (should_close c 0 :: size_query c inp ::
                     fst r1 ++ firstn 2 (fst r2)) ++
                    [draw_call] ++ skipn 3 (fst r2) ++ t3).
    rewrite !app_assoc.
    rewrite last_call_app_none by exact H3.
    rewrite last_call_app_none by exact H2.
    rewrite last_call_app_none by exact Hdr.
    exact Hh. }
  destruct (size_changed st inp) eqn:Ec.
  - assert (Hhead : forall f e,
      last_call f (should_close c 0 :: size_query c inp ::
                   fst r1 ++ firstn 2 (fst r2)) = Some e ->
      last_call f (hist ++ should_close c 0 :: size_query c inp ::
                   fst r1 ++ firstn 2 (fst r2)) = Some e)
      by (intros f e; apply last_call_app_some).
    split.
    + exists (fb_width inp), (fb_height inp), (glGenTextures_ret inp).
      repeat split; apply Hhead; reflexivity.
    + repeat split; apply Hlast; try reflexivity; try assumption;
        apply Hhead; reflexivity.
  - destruct Hinv as [(Hs & Hb & Hi) | Hinv]; [| discriminate].
    apply size_changed_false in Ec. destruct Ec as [Ew Eh].
    rewrite Ew, Eh in Hs.
    assert (Hhead : forall f e,
      last_call f (should_close c 0 :: size_query c inp ::
                   fst r1 ++ firstn 2 (fst r2)) = None ->
      last_call f hist = Some e ->
      last_call f (hist ++ should_close c 0 :: size_query c inp ::
                   fst r1 ++ firstn 2 (fst r2)) = Some e)
      by (intros f e Hn Hh; now rewrite last_call_app_none).
    split.
    + exists (fb_width inp), (fb_height inp), (tex st).
      split; [apply last_call_app_some; reflexivity |].
      repeat split; apply Hhead; try reflexivity; assumption.
    + repeat split; apply Hlast; try reflexivity; try assumption;
        apply Hhead; try reflexivity; assumption.
Qed.

Lemma loop_draws_have_target (ins : list FrameInput) :
  forall (st : LoopState) (hist : trace),
  target_for st hist \/
    (exists inp rest, ins = inp :: rest /\ size_changed st inp = true) ->
  forall (pre post : trace) (d : event),
  is_draw d = true ->
  fst (frame_loop c st ins) = pre ++ d :: post ->
  target_matches c (hist ++ pre).
Proof.
  induction ins as [| inp ins IH]; intros st hist Hinv pre post d Hd E.
  - cbn [frame_loop fst] in E.
    destruct pre as [| p [| q pre]]; cbn [app] in E; try discriminate.
    injection E as <- _. discriminate.
  - rewrite frame_loop_cons in E. cbn [fst] in E.
    assert (Hstep : target_for st hist \/ size_changed st inp = true).
    { destruct Hinv as [Hinv | (i & rest & Ei & Hc)]; [now left |].
      injection Ei as <- <-. now right. }
    destruct (step_draw_has_target st inp hist Hstep)
      as (head & tail & Et & Hhead & Htail & Hnow & Hnext).
    fold (should_close c 0) in E. rewrite Et, <- app_assoc in E.
    change (should_close c 0 :: head ++ (draw_call :: tail) ++
            fst (frame_loop c (snd (frame_step c st inp)) ins))
      with ((should_close c 0 :: head) ++ draw_call ::
            (tail ++ fst (frame_loop c (snd (frame_step c st inp)) ins))) in E.
    destruct (split_first _ _ _ _ _ _ Hhead Hd E) as [-> | (pre' & -> & E')];
      [exact Hnow |].
    destruct (split_skip _ _ _ _ _ Htail Hd E') as (pre'' & -> & E'').
    specialize (IH _ _ (or_introl Hnext) _ _ _ Hd E'').
    rewrite Et in IH.
    replace (hist ++ (should_close c 0 :: head) ++ draw_call :: tail ++ pre'')
      with ((hist ++ should_close c 0 :: head ++ draw_call :: tail) ++ pre'');
      [exact IH |].
    rewrite <- !app_assoc. cbn [app]. rewrite <- !app_assoc. reflexivity.
Qed.

(** C10, as the code has it.  When the first observed framebuffer size is
    not 0 x 0, the first iteration takes the resize branch, and wherever an
    instanced draw occurs in the loop's calls, the calls before it have
    created and bound an image-store target of the size observed last. *)
Theorem draw_follows_target_creation (start0 : double) (inp : FrameInput)
    (ins : list FrameInput) :
  fb_width inp <> 0%Z \/ fb_height inp <> 0%Z ->
  size_changed (initial_state start0) inp = true /\
  forall (pre post : trace) (d : event),
    is_draw d = true ->
    fst (frame_loop c (initial_state start0) (inp :: ins)) = pre ++ d :: post ->
    target_matches c pre.
Proof.
  intros Hne.
  assert (Hc : size_changed (initial_state start0) inp = true).
  { apply size_changed_true. cbn [initial_state lastWidth lastHeight].
    destruct Hne as [Hw | Hh]; [left | right]; congruence. }
  split; [exact Hc |].
  intros pre post d Hd E.
  apply (loop_draws_have_target (inp :: ins) (initial_state start0) [])
    with (post := post) (d := d); [| exact Hd | exact E].
  right. now exists inp, ins.
Qed.

End FrameLoop.



Lemma resize_only_on_change_witness :
  let st0 := initial_state 0 in
  let in1 := mkFrameInput 640 480 9 (1 # 2) in
  let in2 := mkFrameInput 640 480 10 1 in
  let tr1 := fst (frame_step sample_locals st0 in1) in
  let tr2 := fst (frame_step sample_locals (snd (frame_step sample_locals st0 in1)) in2) in
  (exists e, announcements tr1 = [e] /\
             stdout_of e = "rendering 800 bubbles at 640 x 480
") /\
  calls "glTexStorage2D" tr2 = [] /\ announcements tr2 = [].
Proof.
  cbv zeta.
  destruct (resize_only_on_change sample_locals) as [Hsame Hdiff].
  split.
  - assert (Hne : lastWidth (initial_state 0) <> 640%Z \/
                  lastHeight (initial_state 0) <> 480%Z) by (left; discriminate).
    pose proof (Hdiff (initial_state 0) (mkFrameInput 640 480 9 (1 # 2)) Hne) as Hd.
    cbv zeta in Hd. destruct Hd as (_ & _ & _ & He & _). exact He.
  - pose proof (Hsame (initial_state 0) (mkFrameInput 640 480 9 (1 # 2))
                      (mkFrameInput 640 480 10 1) eq_refl eq_refl) as Hs.
    cbv zeta in Hs. destruct Hs as ((H1 & _ & _ & _ & _ & H6) & _).
    exact (conj H1 H6).
Defined.

Lemma fps_report_every_two_seconds_witness :
  let st := initial_state 10 in
  let ins := [mkFrameInput 640 480 9 (21 # 2); mkFrameInput 640 480 9 11] in
  let inp := mkFrameInput 640 480 9 12 in
  let run := frame_loop sample_locals st (ins ++ [inp]) in
  (exists v, fps_reports (fst run) = [v] /\ v == float_of_int 3 / 2) /\
  frames (snd run) = 0%Z /\ start (snd run) = 12.
Proof.
  cbv zeta.
  destruct (fps_report_every_two_seconds sample_locals) as [_ Hrun].
  apply (Hrun (initial_state 10)
              [mkFrameInput 640 480 9 (21 # 2); mkFrameInput 640 480 9 11]
              (mkFrameInput 640 480 9 12)).
  - reflexivity.
  - vm_compute. discriminate.
  - repeat constructor.
  - reflexivity.
Defined.

Lemma draw_follows_target_creation_witness :
  let ins := [mkFrameInput 640 480 9 (1 # 2); mkFrameInput 800 600 10 1] in
  let tr := fst (frame_loop sample_locals (initial_state 0) ins) in
  size_changed (initial_state 0) (mkFrameInput 640 480 9 (1 # 2)) = true /\
  forall pre post d,
    is_draw d = true -> tr = pre ++ d :: post -> target_matches sample_locals pre.
Proof.
  cbv zeta.
  apply (draw_follows_target_creation sample_locals 0
           (mkFrameInput 640 480 9 (1 # 2)) [mkFrameInput 800 600 10 1]).
  left. discriminate.
Defined.

(** C10 as stated fails when the first observed framebuffer size is 0 x 0:
    the resize branch is skipped, and the draw is issued with no storage
    call and no image binding before it. *)
Lemma zero_size_draws_without_target :
  let inp := mkFrameInput 0 0 9 (1 # 2) in
  let tr := fst (frame_loop sample_locals (initial_state 0) [inp]) in
  size_changed (initial_state 0) inp = false /\
  calls "glDrawArraysInstanced" tr = [draw_call] /\
  calls "glTexStorage2D" tr = [] /\
  calls "glBindImageTexture" tr = [] /\
  exists pre post,
    tr = pre ++ draw_call :: post /\ ~ target_matches sample_locals pre.
Proof.
  cbv zeta. repeat (split; [reflexivity |]).
  eexists [_; _; _; _], _. split; [reflexivity |].
  intros (w & h & t & _ & Hs & _). discriminate.
Qed.

(** * Further properties *)

(** ** The triangle wave *)

Section TriangleWave.

Import GLSL.

Lemma mod_small (a b : Q) : 0 <= a -> a < b -> mod_ a b == a.
Proof.
  intros Ha Hab. unfold mod_, floor.
  assert (Hb : 0 < b) by lra.
  assert (Hf : Qfloor (a / b) = 0%Z).
  { apply Qfloor_unique.
    - change (inject_Z 0) with 0. apply Qle_shift_div_l; [exact Hb | lra].
    - change (inject_Z (0 + 1)) with 1. apply Qlt_shift_div_r; [exact Hb | lra]. }
  rewrite Hf. change (inject_Z 0) with 0. ring.
Qed.


Lemma fold_identity_axis (a : axis) (window : vec2) (T : float)
    (bubble : vec3) (speed : vec2) :
  2 * v3z bubble < comp a window ->
  v3z bubble <= comp a (xy bubble) + comp a speed * T ->
  comp a (xy bubble) + comp a speed * T <= comp a window - v3z bubble ->
  comp a (vs_center window T bubble speed) ==
  comp a (xy bubble) + comp a speed * T.
Proof.
  intros Hw Hlo Hhi. rewrite comp_vs_center. cbv zeta.
  set (r := v3z bubble) in *.
  set (c := comp a (xy bubble) + comp a speed * T) in *.
  set (span := comp a window - 2 * r) in *.
  rewrite (mod_small (c - r) (span * 2)) by (unfold span; lra).
  rewrite Qabs_pos by (unfold span; lra). ring.
Qed.

(** X1. While the unfolded centre is between the walls, the fold leaves it
    where it is. *)
Theorem fold_identity_between_walls (a : axis) (window : vec2) (T : float)
    (bubble : vec3) (speed : vec2) :
  let r := v3z bubble in
  let c := comp a (xy bubble) + comp a speed * T in
  2 * r < comp a window ->
  r <= c -> c <= comp a window - r ->
  comp a (vs_center window T bubble speed) == c.
Proof. cbv zeta. apply fold_identity_axis. Qed.

Lemma fold_identity_between_walls_witness :
  let w := mkVec2 2048 1024 in
  let b := mkVec3 300 200 (512 # 5) in
  let s := mkVec2 7 (3 # 2) in
  comp AxisX (vs_center w 100 b s) == 300 + 7 * 100.
Proof.
  cbv zeta.
  apply (fold_identity_between_walls AxisX (mkVec2 2048 1024) 100
           (mkVec3 300 200 (512 # 5)) (mkVec2 7 (3 # 2))); reflexivity || discriminate.
Defined.

(** X2. Past the far wall, for one further span, the centre is mirrored in the
    wall at [W - r]. *)
Theorem fold_mirrors_at_far_wall (a : axis) (window : vec2) (T : float)
    (bubble : vec3) (speed : vec2) :
  let r := v3z bubble in
  let c := comp a (xy bubble) + comp a speed * T in
  let far := comp a window - r in
  2 * r < comp a window ->
  far <= c -> c < far + (comp a window - 2 * r) ->
  comp a (vs_center window T bubble speed) == far - (c - far).
Proof.
  intros r c far Hw Hlo Hhi. rewrite comp_vs_center. cbv zeta. fold r. fold c.
  unfold far in *. set (span := comp a window - 2 * r) in *.
  rewrite (mod_small (c - r) (span * 2)) by (unfold span in *; lra).
  rewrite Qabs_neg by (unfold span in *; lra). unfold span. ring.
Qed.

Lemma fold_mirrors_at_far_wall_witness :
  let w := mkVec2 2048 1024 in
  let b := mkVec3 300 200 (512 # 5) in
  let s := mkVec2 7 (3 # 2) in
  let far := 2048 - (512 # 5) in
  comp AxisX (vs_center w 300 b s) == far - (300 + 7 * 300 - far).
Proof.
  cbv zeta.
  apply (fold_mirrors_at_far_wall AxisX (mkVec2 2048 1024) 300
           (mkVec3 300 200 (512 # 5)) (mkVec2 7 (3 # 2))); reflexivity || discriminate.
Defined.

(** X3. The corner is chosen by the two low bits of the vertex index, whatever
    the index. *)
Theorem corner_by_low_bits (gl_VertexID : Z) :
  vs_offset gl_VertexID = nth (Z.to_nat (gl_VertexID mod 4)) corners (mkVec2 0 0).
Proof.
  assert (E : vs_offset gl_VertexID = vs_offset (Z.land gl_VertexID 3)).
  { unfold vs_offset. rewrite <- !Z.land_assoc. reflexivity. }
  rewrite E. change 3%Z with (Z.ones 2). rewrite Z.land_ones by lia.
  change (2 ^ 2)%Z with 4%Z.
  pose proof (Z.mod_pos_bound gl_VertexID 4 eq_refl) as Hm.
  set (m := (gl_VertexID mod 4)%Z) in *.
  assert (Hc : m = 0%Z \/ m = 1%Z \/ m = 2%Z \/ m = 3%Z) by lia.
  destruct Hc as [-> | [-> | [-> | ->]]]; reflexivity.
Qed.



End TriangleWave.

(** ** More on bubble generation *)

Section GenerationMore.

Lemma lerp_between (a b t : float) :
  a <= b -> 0 <= t -> t <= 1 -> a <= lerp a b t /\ lerp a b t <= b.
Proof. intros Hab Ht0 Ht1. unfold lerp. split; nra. Qed.



Lemma gen_bubble_next (g : Rand) (i : nat) : snd (gen_bubble g i) = (9 + i)%nat.
Proof. reflexivity. Qed.

Lemma gen_bubbles_next (g : Rand) (count : nat) :
  forall i, snd (gen_bubbles g count i) = (9 * count + i)%nat.
Proof.
  induction count as [| count IH]; intros i; [reflexivity |].
  cbn [gen_bubbles]. pose proof (gen_bubble_next g i) as En.
  destruct (gen_bubble g i) as [b j]. cbn [snd] in En. subst j.
  specialize (IH (9 + i)%nat). destruct (gen_bubbles g count (9 + i)) as [bs j].
  cbn [snd] in *. rewrite IH. lia.
Qed.

Lemma gen_bubbles_nth (g : Rand) (count : nat) :
  forall i k, (k < count)%nat ->
  nth_error (fst (gen_bubbles g count i)) k = Some (fst (gen_bubble g (9 * k + i))).
Proof.
  induction count as [| count IH]; intros i k Hk; [lia |].
  cbn [gen_bubbles]. pose proof (gen_bubble_next g i) as En.
  destruct (gen_bubble g i) as [b j] eqn:Eb. cbn [snd] in En. subst j.
  specialize (IH (9 + i)%nat).
  destruct (gen_bubbles g count (9 + i)) as [bs j]. cbn [fst] in *.
  destruct k as [| k]; cbn [nth_error].
  - cbn [Nat.mul Nat.add]. now rewrite Eb.
  - rewrite IH by lia.
    replace (9 * k + (9 + i))%nat with (9 * S k + i)%nat by lia. reflexivity.
Qed.

Lemma gen_bubble_local (g g' : Rand) (i : nat) :
  RAND_MAX g = RAND_MAX g' ->
  (forall j, (i <= j < i + 9)%nat -> rand g j = rand g' j) ->
  fst (gen_bubble g i) = fst (gen_bubble g' i).
Proof.
  intros Em Er. unfold gen_bubble, frand2, frand. cbn [fst snd].
  rewrite Em.
  rewrite (Er i), (Er (S i)), (Er (S (S i))), (Er (S (S (S i)))),
    (Er (S (S (S (S i))))), (Er (S (S (S (S (S i)))))),
    (Er (S (S (S (S (S (S i))))))), (Er (S (S (S (S (S (S (S i)))))))),
    (Er (S (S (S (S (S (S (S (S i))))))))) by lia.
  reflexivity.
Qed.

(** X6. Bubble [k] is made from the nine draws [9k .. 9k+8] and from nothing
    else; generating [count] bubbles makes [9 * count] draws. *)
Theorem bubble_uses_nine_draws (g g' : Rand) (count k : nat) :
  (k < count)%nat ->
  RAND_MAX g = RAND_MAX g' ->
  (forall j, (9 * k <= j < 9 * k + 9)%nat -> rand g j = rand g' j) ->
  nth_error (fst (gen_bubbles g count 0)) k =
    nth_error (fst (gen_bubbles g' count 0)) k /\
  snd (gen_bubbles g count 0) = (9 * count)%nat.
Proof.
  intros Hk Em Er. split; [| rewrite gen_bubbles_next; lia].
  rewrite !gen_bubbles_nth by exact Hk. f_equal.
  apply gen_bubble_local; [exact Em |].
  intros j Hj. apply Er. lia.
Qed.

End GenerationMore.

Lemma bubble_uses_nine_draws_witness :
  nth_error (fst (gen_bubbles sample_rand 3 0)) 1 =
    nth_error (fst (gen_bubbles sample_rand' 3 0)) 1 /\
  snd (gen_bubbles sample_rand 3 0) = 27%nat.
Proof.
  apply (bubble_uses_nine_draws sample_rand sample_rand' 3 1).
  - repeat constructor.
  - reflexivity.
  - intros j Hj. cbn [rand sample_rand sample_rand'].
    destruct (j <? 9)%nat eqn:E; [apply Nat.ltb_lt in E; lia | reflexivity].
Defined.

(** ** Generated bubbles: velocity, colour, and the fold *)

Section GeneratedBubbles.

Variable g : Rand.
Hypothesis RAND_MAX_pos : (0 < RAND_MAX g)%Z.
Hypothesis rand_range : forall i, (0 <= rand g i <= RAND_MAX g)%Z.

Lemma gen_bubble_velocity (j : nat) :
  let b := fst (gen_bubble g j) in
  Qabs (dx b) <= 256 # 25 /\ Qabs (dy b) <= 256 # 25.
Proof.
  cbv zeta.
  destruct (frand_unit g RAND_MAX_pos rand_range (3 + j)) as [Hx0 Hx1].
  destruct (frand_unit g RAND_MAX_pos rand_range (4 + j)) as [Hy0 Hy1].
  change (dx (fst (gen_bubble g j)))
    with ((fst (frand g (3 + j)) - (1 # 2)) * (2 # 100) * 1024).
  change (dy (fst (gen_bubble g j)))
    with ((fst (frand g (4 + j)) - (1 # 2)) * (2 # 100) * 1024).
  split; apply Qabs_Qle_condition; split; lra.
Qed.

Lemma gen_bubble_color (j : nat) :
  exists cr cg cb ca,
    color (fst (gen_bubble g j)) = [cr; cg; cb; ca] /\
    ((1 # 2) <= cr /\ cr <= 1) /\ ((1 # 2) <= cg /\ cg <= 1) /\
    ((1 # 2) <= cb /\ cb <= 1) /\ ((3 # 4) <= ca /\ ca <= 1).
Proof.
  exists (lerp (1 # 2) 1 (fst (frand g (5 + j)))),
         (lerp (1 # 2) 1 (fst (frand g (6 + j)))),
         (lerp (1 # 2) 1 (fst (frand g (7 + j)))),
         (lerp (3 # 4) 1 (fst (frand g (8 + j)))).
  split; [reflexivity |].
  repeat split;
    match goal with
    | |- context [frand g ?i] =>
        destruct (frand_unit g RAND_MAX_pos rand_range i) as [H0 H1];
        apply lerp_between; (exact H0 || exact H1 || discriminate)
    end.
Qed.

Lemma gen_bubble_inside (j : nat) :
  let b := fst (gen_bubble g j) in
  (r b <= x b /\ x b <= 2048 - r b) /\ (r b <= y b /\ y b <= 2048 - r b) /\
  0 <= r b /\ 2 * r b <= 3072 # 5.
Proof.
  cbv zeta. rewrite gen_bubble_r, gen_bubble_x, gen_bubble_y.
  destruct (unit_radius_range g RAND_MAX_pos rand_range j) as [Hr0 Hr].
  destruct (frand_unit g RAND_MAX_pos rand_range (S j)) as [Hx0 Hx1].
  destruct (frand_unit g RAND_MAX_pos rand_range (S (S j))) as [Hy0 Hy1].
  assert (Hr1 : unit_radius g j <= 1) by lra.
  destruct (inset_range _ _ Hr1 Hx0 Hx1).
  destruct (inset_range _ _ Hr1 Hy0 Hy1).
  repeat split; lra.
Qed.

End GeneratedBubbles.

(** X7. Every generated bubble moves at most 10.24 px per frame on each axis. *)
Theorem bubble_velocity_bound (g : Rand) (b : Bubble) :
  (0 < RAND_MAX g)%Z ->
  (forall i, (0 <= rand g i <= RAND_MAX g)%Z) ->
  In b (fst (gen_bubbles g (Z.to_nat n) 0)) ->
  Qabs (dx b) <= 256 # 25 /\ Qabs (dy b) <= 256 # 25.
Proof.
  intros Hpos Hrange Hin. destruct (gen_bubbles_In g _ _ _ Hin) as [j ->].
  apply gen_bubble_velocity; assumption.
Qed.

(** X8. Every generated bubble has four colour components: red, green and blue
    in [[1/2, 1]] and alpha in [[3/4, 1]]. *)
Theorem bubble_color_range (g : Rand) (b : Bubble) :
  (0 < RAND_MAX g)%Z ->
  (forall i, (0 <= rand g i <= RAND_MAX g)%Z) ->
  In b (fst (gen_bubbles g (Z.to_nat n) 0)) ->
  exists cr cg cb ca,
    color b = [cr; cg; cb; ca] /\
    ((1 # 2) <= cr /\ cr <= 1) /\ ((1 # 2) <= cg /\ cg <= 1) /\
    ((1 # 2) <= cb /\ cb <= 1) /\ ((3 # 4) <= ca /\ ca <= 1).
Proof.
  intros Hpos Hrange Hin. destruct (gen_bubbles_In g _ _ _ Hin) as [j ->].
  apply gen_bubble_color; assumption.
Qed.


(** X10. In the initial 2048 x 2048 window, frame 0 shows every generated bubble
    at its generated position. *)
Theorem generated_bubbles_start_in_place (g : Rand) (b : Bubble) :
  (0 < RAND_MAX g)%Z ->
  (forall i, (0 <= rand g i <= RAND_MAX g)%Z) ->
  In b (fst (gen_bubbles g (Z.to_nat n) 0)) ->
  let window := GLSL.mkVec2 (float_of_int W) (float_of_int H) in
  let c := GLSL.vs_center window (float_of_int 0) (bubble_attr b) (speed_attr b) in
  GLSL.vx c == x b /\ GLSL.vy c == y b.
Proof.
  intros Hpos Hrange Hin window c. destruct (gen_bubbles_In g _ _ _ Hin) as [j ->].
  destruct (gen_bubble_inside g Hpos Hrange j)
    as ((Hx0 & Hx1) & (Hy0 & Hy1) & Hr0 & Hr).
  set (b := fst (gen_bubble g j)) in *.
  pose proof (fold_identity_axis GLSL.AxisX window (float_of_int 0)
                (bubble_attr b) (speed_attr b)) as Fx.
  pose proof (fold_identity_axis GLSL.AxisY window (float_of_int 0)
                (bubble_attr b) (speed_attr b)) as Fy.
  cbn [GLSL.comp GLSL.xy GLSL.vx GLSL.vy GLSL.v3x GLSL.v3y GLSL.v3z
       bubble_attr speed_attr window] in Fx, Fy.
  change (float_of_int W) with 2048 in *. change (float_of_int H) with 2048 in *.
  change (float_of_int 0) with 0 in *.
  split.
  - subst c. rewrite Fx; [ring | lra | lra | lra].
  - subst c. rewrite Fy; [ring | lra | lra | lra].
Qed.

Lemma sample_rand_range (i : nat) :
  (0 <= rand sample_rand i <= RAND_MAX sample_rand)%Z.
Proof.
  simpl.
  pose proof (Z.mod_pos_bound (Z.of_nat i * 1103515245 + 12345) 2147483648).
  lia.
Qed.

Ltac sample_rand_ok :=
  [> reflexivity | exact sample_rand_range | apply gen_bubbles_head | ..].

Lemma bubble_velocity_bound_witness :
  let b := fst (gen_bubble sample_rand 0) in
  Qabs (dx b) <= 256 # 25 /\ Qabs (dy b) <= 256 # 25.
Proof.
  apply (bubble_velocity_bound sample_rand (fst (gen_bubble sample_rand 0)));
    sample_rand_ok.
Defined.

Lemma bubble_color_range_witness :
  exists cr cg cb ca,
    color (fst (gen_bubble sample_rand 0)) = [cr; cg; cb; ca] /\
    ((1 # 2) <= cr /\ cr <= 1) /\ ((1 # 2) <= cg /\ cg <= 1) /\
    ((1 # 2) <= cb /\ cb <= 1) /\ ((3 # 4) <= ca /\ ca <= 1).
Proof.
  apply (bubble_color_range sample_rand (fst (gen_bubble sample_rand 0)));
    sample_rand_ok.
Defined.


Lemma generated_bubbles_start_in_place_witness :
  let b := fst (gen_bubble sample_rand 0) in
  let c := GLSL.vs_center (GLSL.mkVec2 (float_of_int W) (float_of_int H))
                          (float_of_int 0) (bubble_attr b) (speed_attr b) in
  GLSL.vx c == x b /\ GLSL.vy c == y b.
Proof.
  apply (generated_bubbles_start_in_place sample_rand (fst (gen_bubble sample_rand 0)));
    sample_rand_ok.
Defined.

(** ** The fragment shader *)

Section FragmentShader.

Import GLSL Frag.

Variable round : float -> Z.
Hypothesis round_nearest : forall v, Qabs (inject_Z (round v) - v) <= 1 # 2.

Lemma round_zero (v : float) : v == 0 -> round v = 0%Z.
Proof.
  intros Hv. pose proof (round_nearest v) as Hn.
  apply Qabs_Qle_condition in Hn. destruct Hn as [Hlo Hhi].
  assert (H1 : inject_Z (-1) < inject_Z (round v)) by (change (inject_Z (-1)) with (-(1)); lra).
  assert (H2 : inject_Z (round v) < inject_Z 1) by (change (inject_Z 1) with 1; lra).
  rewrite <- Zlt_Qlt in H1, H2. lia.
Qed.

Lemma max_spec (a b : float) :
  (b <= a /\ max a b = a) \/ (a < b /\ max a b = b).
Proof.
  unfold max. destruct (Qle_bool b a) eqn:E.
  - left. split; [now apply Qle_bool_iff | reflexivity].
  - right. split; [| reflexivity].
    apply Qnot_le_lt. intros Hle. apply Qle_bool_iff in Hle. congruence.
Qed.

Lemma min_spec (a b : float) :
  (a <= b /\ min a b = a) \/ (b < a /\ min a b = b).
Proof.
  unfold min. destruct (Qle_bool a b) eqn:E.
  - left. split; [now apply Qle_bool_iff | reflexivity].
  - right. split; [| reflexivity].
    apply Qnot_le_lt. intros Hle. apply Qle_bool_iff in Hle. congruence.
Qed.

Lemma clamp_below (v : float) : v <= 0 -> clamp v 0 1 == 0.
Proof.
  intros Hv. unfold clamp.
  destruct (max_spec v 0) as [[H1 ->] | [H1 ->]];
    [destruct (min_spec v 1) as [[H2 ->] | [H2 ->]]
    | destruct (min_spec 0 1) as [[H2 ->] | [H2 ->]]]; lra.
Qed.

Lemma clamp_above (v : float) : 1 <= v -> clamp v 0 1 == 1.
Proof.
  intros Hv. unfold clamp.
  destruct (max_spec v 0) as [[H1 ->] | [H1 ->]];
    [destruct (min_spec v 1) as [[H2 ->] | [H2 ->]]
    | destruct (min_spec 0 1) as [[H2 ->] | [H2 ->]]]; lra.
Qed.

Lemma coverage_outside (fw : float) (coord : vec2) :
  0 < fw -> fw / 2 <= fs_f coord -> fs_coverage fw coord == 0.
Proof.
  intros Hfw Hf. unfold fs_coverage. apply clamp_below.
  assert (1 # 2 <= fs_f coord / fw).
  { apply Qle_shift_div_l; [exact Hfw |].
    assert (E : fw / 2 == (1 # 2) * fw) by (field). lra. }
  lra.
Qed.

Lemma coverage_inside (fw : float) (coord : vec2) :
  0 < fw -> fs_f coord <= - (fw / 2) -> fs_coverage fw coord == 1.
Proof.
  intros Hfw Hf. unfold fs_coverage. apply clamp_above.
  assert (fs_f coord / fw <= - (1 # 2)).
  { apply Qle_shift_div_r; [exact Hfw |].
    assert (E : fw / 2 == (1 # 2) * fw) by (field). lra. }
  lra.
Qed.

(** X11. The shader has no [discard]: a fragment of the quad that lies outside
    the circle by half the width of the edge or more still stores, and what
    it stores is 0. *)
Theorem fragment_outside_stores_zero (fw : float) (coord : vec2)
    (color gl_FragCoord : vec4) :
  0 < fw ->
  fw / 2 <= fs_f coord ->
  fs_main round fw coord color gl_FragCoord =
  mkStore (Qfloor (v4x gl_FragCoord), Qfloor (v4y gl_FragCoord))
          (0, 0, 0, 0)%Z.
Proof.
  intros Hfw Hf. unfold fs_main, packUnorm4x8, unorm8, fs_s.
  pose proof (coverage_outside fw coord Hfw Hf) as Hc.
  set (k := v4w color * mix (1 # 4) 1 (dot coord coord) * fs_coverage fw coord).
  assert (Hk : k == 0) by (unfold k; rewrite Hc; ring).
  cbn [v4x v4y v4z v4w].
  assert (Hz : forall q, round (clamp (q * k) 0 1 * 255) = 0%Z).
  { intros q. apply round_zero.
    assert (Hq : q * k <= 0) by (rewrite Hk; lra).
    rewrite (clamp_below _ Hq). ring. }
  rewrite !Hz. reflexivity.
Qed.

(** X12. Well inside the circle the coverage is 1, the colour is premultiplied
    by the stored alpha, and that alpha is [color.a * (1/4 + 3/4 d)] for the
    squared distance [d] from the centre: a quarter of [color.a] at the
    centre, rising towards the rim. *)
Theorem fragment_inside_shading (fw : float) (coord : vec2) (color : vec4) :
  0 < fw ->
  fs_f coord <= - (fw / 2) ->
  0 <= v4w color ->
  let d := dot coord coord in
  let s := fs_s fw coord color in
  fs_coverage fw coord == 1 /\
  v4w s == v4w color * ((1 # 4) + (3 # 4) * d) /\
  (v4x s == v4x color * v4w s /\ v4y s == v4y color * v4w s /\
   v4z s == v4z color * v4w s) /\
  (1 # 4) * v4w color <= v4w s /\ v4w s <= v4w color.
Proof.
  intros Hfw Hf Ha d s.
  pose proof (coverage_inside fw coord Hfw Hf) as Hc.
  assert (Hd : 0 <= d /\ d <= 1).
  { unfold fs_f in Hf. unfold d, dot.
    assert (0 <= vx coord * vx coord) by nra.
    assert (0 <= vy coord * vy coord) by nra.
    assert (0 < fw / 2) by (apply Qlt_shift_div_l; lra).
    split; lra. }
  assert (Hw : v4w s == v4w color * ((1 # 4) + (3 # 4) * d)).
  { unfold s, fs_s. cbn [v4w]. fold d. rewrite Hc. unfold mix. ring. }
  split; [exact Hc |]. split; [exact Hw |].
  split; [unfold s, fs_s; cbn [v4x v4y v4z v4w]; repeat split; ring |].
  rewrite Hw. destruct Hd. split; nra.
Qed.

End FragmentShader.

Lemma round_half_up_nearest (v : float) :
  Qabs (inject_Z (round_half_up v) - v) <= 1 # 2.
Proof.
  unfold round_half_up.
  pose proof (Qfloor_le (v + (1 # 2))) as Hlo.
  pose proof (Qlt_floor (v + (1 # 2))) as Hhi.
  rewrite inject_Z_plus in Hhi. change (inject_Z 1) with 1 in Hhi.
  apply Qabs_Qle_condition. split; lra.
Qed.

Lemma fragment_outside_stores_zero_witness :
  Frag.fs_main round_half_up (1 # 100) (GLSL.mkVec2 1 1) (GLSL.mkVec4 1 1 1 1)
               (GLSL.mkVec4 (21 # 2) (7 # 2) 0 1) =
  Frag.mkStore (10, 3)%Z (0, 0, 0, 0)%Z.
Proof.
  apply (fragment_outside_stores_zero round_half_up round_half_up_nearest
           (1 # 100) (GLSL.mkVec2 1 1) (GLSL.mkVec4 1 1 1 1)
           (GLSL.mkVec4 (21 # 2) (7 # 2) 0 1)); reflexivity || discriminate.
Defined.

Lemma fragment_inside_shading_witness :
  let s := Frag.fs_s (1 # 100) (GLSL.mkVec2 (1 # 2) 0) (GLSL.mkVec4 1 (1 # 2) 1 (3 # 4)) in
  Frag.fs_coverage (1 # 100) (GLSL.mkVec2 (1 # 2) 0) == 1 /\
  GLSL.v4w s == (3 # 4) * ((1 # 4) + (3 # 4) * (1 # 4)).
Proof.
  cbv zeta.
  pose proof (fragment_inside_shading (1 # 100) (GLSL.mkVec2 (1 # 2) 0)
                (GLSL.mkVec4 1 (1 # 2) 1 (3 # 4))) as Hs.
  cbv zeta in Hs. destruct Hs as (Hc & Hw & _); [reflexivity | discriminate | discriminate |].
  split; [exact Hc | exact Hw].
Defined.

(** ** Whole runs of the frame loop *)

Section WholeRun.

Variable c : Locals.

(** What one iteration contributes to each kind of call. *)
Lemma step_calls (st : LoopState) (inp : FrameInput) :
  let t := fst (frame_step c st inp) in
  let ch := size_changed st inp in
  (calls "glDrawArraysInstanced" t = [draw_call] /\
   List.length (calls "glBlitFramebuffer" t) = 1%nat /\
   calls "glfwSwapBuffers" t = [Call "glfwSwapBuffers" [AInt (window c)] []] /\
   calls "glfwPollEvents" t = [Call "glfwPollEvents" [] []] /\
   calls "glfwWindowShouldClose" t = [] /\
   calls "glfwGetFramebufferSize" t = [size_query c inp]) /\
  (calls "glTexStorage2D" t = (if ch then [storage_call inp] else []) /\
   calls "glGenTextures" t = (if ch then [gen_call inp] else []) /\
   calls "glDeleteTextures" t = (if ch then [delete_call (tex st)] else []) /\
   map stdout_of (announcements t) =
     (if ch then [announcement (fb_width inp) (fb_height inp)] else []) /\
   tex (snd (frame_step c st inp)) = (if ch then glGenTextures_ret inp else tex st)) /\
  (uploads (uniformT c) t = [float_of_int (totalFrames st)] /\
   stderr_text t = "" /\ calls "glfwTerminate" t = []).
Proof.
  cbv zeta. remember (frame_step c st inp) as res eqn:Eres.
  rewrite frame_step_phases in Eres. cbv zeta in Eres.
  unfold report_fps, draw_and_present, resize in Eres.
  destruct (size_changed st inp); cbn [fst snd] in Eres;
    destruct (Qle_bool _ _); cbn [fst snd app] in Eres; subst res;
    repeat match goal with |- _ /\ _ => split end;
    first [ vm_compute; reflexivity
          | lazy -[Z.eqb float_of_int totalFrames uniformT];
            rewrite Z.eqb_refl; reflexivity ].
Qed.


Lemma calls_cons_should_close (f : string) (answer : Z) (t : trace) :
  calls f (should_close c answer :: t) =
  (if String.eqb "glfwWindowShouldClose" f then [should_close c answer] else []) ++
  calls f t.
Proof.
  unfold calls. cbn [filter]. unfold is_call at 1. cbn [fn_of should_close].
  destruct (String.eqb "glfwWindowShouldClose" f); reflexivity.
Qed.

(** The calls of a run of the loop, kind by kind: [frame_loop] over
    [inp :: ins] is one iteration followed by the run over [ins]. *)
Lemma calls_frame_loop_cons (f : string) (st : LoopState) (inp : FrameInput)
    (ins : list FrameInput) :
  calls f (fst (frame_loop c st (inp :: ins))) =
  (if String.eqb "glfwWindowShouldClose" f then [should_close c 0] else []) ++
  calls f (fst (frame_step c st inp)) ++
  calls f (fst (frame_loop c (snd (frame_step c st inp)) ins)).
Proof.
  rewrite frame_loop_cons. cbn [fst].
  now rewrite calls_cons_should_close, calls_app.
Qed.

(** X13. Each iteration draws once, blits once, presents once and polls once;
    the close flag is read once more than there are iterations. *)
Theorem one_draw_per_frame (st : LoopState) (ins : list FrameInput) :
  let t := fst (frame_loop c st ins) in
  let N := List.length ins in
  calls "glDrawArraysInstanced" t = repeat draw_call N /\
  List.length (calls "glBlitFramebuffer" t) = N /\
  calls "glfwSwapBuffers" t = repeat (Call "glfwSwapBuffers" [AInt (window c)] []) N /\
  calls "glfwPollEvents" t = repeat (Call "glfwPollEvents" [] []) N /\
  calls "glfwWindowShouldClose" t = repeat (should_close c 0) N ++ [should_close c 1] /\
  calls "glfwGetFramebufferSize" t = map (size_query c) ins.
Proof.
  cbv zeta. revert st. induction ins as [| inp ins IH]; intros st.
  - repeat split.
  - destruct (IH (snd (frame_step c st inp))) as (I1 & I2 & I3 & I4 & I5 & I6).
    destruct (step_calls st inp) as ((S1 & S2 & S3 & S4 & S5 & S6) & _ & _).
    rewrite !calls_frame_loop_cons, I1, I3, I4, I5, I6.
    rewrite length_app, length_app, I2, S1, S2, S3, S4, S5, S6.
    repeat split.
Qed.


(** X15. The target is recreated, and the new size announced, in exactly the
    iterations that observe a size other than the one observed before
    (other than the cached size, for the first). *)
Theorem one_resize_per_size_change (ins : list FrameInput) :
  forall st : LoopState,
  let t := fst (frame_loop c st ins) in
  let changes := resized (lastWidth st) (lastHeight st) ins in
  calls "glTexStorage2D" t = map storage_call changes /\
  map stdout_of (announcements t) =
    map (fun inp => announcement (fb_width inp) (fb_height inp)) changes.
Proof.
  induction ins as [| inp ins IH]; intros st; cbv zeta; [split; reflexivity |].
  destruct (IH (snd (frame_step c st inp))) as [I1 I2].
  destruct (frame_step_caches_size c st inp) as [Ew Eh]. rewrite Ew, Eh in I1, I2.
  destruct (step_calls st inp) as (_ & (S1 & _ & _ & S4 & _) & _).
  cbv zeta in S1, S4.
  rewrite calls_frame_loop_cons, I1, S1. cbn [String.eqb Ascii.eqb Bool.eqb app resized].
  rewrite frame_loop_cons. cbn [fst]. unfold announcements in *.
  cbn [filter is_announcement should_close]. rewrite filter_app, map_app, I2, S4.
  change (negb (lastWidth st =? fb_width inp)%Z || negb (lastHeight st =? fb_height inp)%Z)
    with (size_changed st inp).
  destruct (size_changed st inp) eqn:E; [split; reflexivity |].
  apply size_changed_false in E. destruct E as [-> ->]. split; reflexivity.
Qed.

Lemma last_app_cons {A} (l l' : list A) (a d : A) :
  last (l ++ a :: l') d = last (a :: l') d.
Proof.
  induction l as [| b l IH]; [reflexivity |].
  cbn [app]. rewrite <- IH. destruct l; reflexivity.
Qed.

Lemma last_cons_default {A} (l : list A) :
  forall a d : A, last (a :: l) d = last l a.
Proof.
  induction l as [| b l IH]; intros a d; [reflexivity |].
  change (last (a :: b :: l) d) with (last (b :: l) d).
  now rewrite !IH.
Qed.

(** X16. Each recreation first deletes the texture the previous one generated
    (the first deletes the texture held on entry, 0 at start-up), so the
    loop never holds more than one; the texture generated last is not
    deleted. *)
Theorem textures_replaced_one_for_one (ins : list FrameInput) :
  forall st : LoopState,
  let t := fst (frame_loop c st ins) in
  let changes := resized (lastWidth st) (lastHeight st) ins in
  let generated := map glGenTextures_ret changes in
  calls "glGenTextures" t = map gen_call changes /\
  calls "glDeleteTextures" t =
    map delete_call (firstn (List.length changes) (tex st :: generated)) /\
  tex (snd (frame_loop c st ins)) = last generated (tex st).
Proof.
  induction ins as [| inp ins IH]; intros st; cbv zeta; [repeat split |].
  destruct (IH (snd (frame_step c st inp))) as (I1 & I2 & I3).
  destruct (frame_step_caches_size c st inp) as [Ew Eh].
  rewrite Ew, Eh in I1, I2, I3.
  destruct (step_calls st inp) as (_ & (_ & S2 & S3 & _ & S5) & _).
  cbv zeta in S2, S3, S5. rewrite S5 in I2, I3.
  rewrite !calls_frame_loop_cons, I1, I2, S2, S3.
  rewrite frame_loop_cons. cbn [snd]. rewrite I3.
  cbn [String.eqb Ascii.eqb Bool.eqb app resized].
  change (negb (lastWidth st =? fb_width inp)%Z || negb (lastHeight st =? fb_height inp)%Z)
    with (size_changed st inp).
  destruct (size_changed st inp) eqn:E.
  - cbn [map List.length firstn app].
    repeat split. symmetry. apply last_cons_default.
  - apply size_changed_false in E. destruct E as [-> ->]. repeat split.
Qed.

End WholeRun.

(** ** [compile_and_attach_shader] on any source *)

Section CompileAnySource.

Lemma print_lines_continue (lines : list string) :
  forall l, snd (print_lines l lines) = Continue tt.
Proof.
  induction lines as [| s lines IH]; intros l; [reflexivity |].
  cbn [print_lines]. rewrite bind_call. cbn [snd]. apply IH.
Qed.

Lemma print_lines_only_prints (f : string) (lines : list string) :
  String.eqb "fprintf" f = false ->
  forall l, calls f (fst (print_lines l lines)) = [].
Proof.
  intros Hf. induction lines as [| s lines IH]; intros l; [reflexivity |].
  cbn [print_lines]. rewrite bind_call. cbn [fst]. unfold calls in *.
  cbn [filter]. unfold is_call at 1. cbn [fn_of]. rewrite Hf. apply IH.
Qed.



Variable env : Env.
Variables (program : Z) (type source : string).

(** The trace on each of the two paths. *)
Lemma compile_trace :
  let shader := glCreateShader_ret env type in
  let run := compile_and_attach_shader env program type source in
  fst run =
  [Call "glCreateShader" [AEnum type] [AInt shader];
   Call "glShaderSource" [AInt shader; AInt 1; AStr source; ANull] [];
   Call "glCompileShader" [AInt shader] [];
   Call "glGetShaderiv" [AInt shader; AEnum "GL_COMPILE_STATUS"]
        [AInt (compile_status env shader)]] ++
  (if (compile_status env shader =? GL_FALSE)%Z then
     [Call "glGetShaderiv" [AInt shader; AEnum "GL_INFO_LOG_LENGTH"]
           [AInt (info_log_length (shader_info_log env shader))];
      Call "glGetShaderInfoLog"
           [AInt shader; AInt (info_log_length (shader_info_log env shader))]
           [AInt (info_log_length (shader_info_log env shader));
            AStr (shader_info_log env shader)];
      Call "fprintf" [AEnum "stderr"; AStr "Failed to compile shader
"] []] ++
     fst (print_lines 1 (getlines source)) ++
     [Call "fprintf" [AEnum "stderr"; AStr "%s
"; AStr (shader_info_log env shader)] [];
      Call "fflush" [AEnum "stderr"] [];
      Call "glDeleteShader" [AInt shader] []]
   else
     [Call "glAttachShader" [AInt program; AInt shader] [];
      Call "glDeleteShader" [AInt shader] []]) /\
  snd run = Continue (negb (compile_status env shader =? GL_FALSE)%Z).
Proof.
  intros shader run. subst run. unfold compile_and_attach_shader. fold shader.
  cbv zeta. rewrite !bind_call. cbn [fst snd app].
  destruct (compile_status env shader =? GL_FALSE)%Z.
  - rewrite ?bind_call. cbn [fst snd].
    rewrite (bind_continue _ tt) by apply print_lines_continue.
    rewrite ?bind_call. cbn [fst snd app negb ret]. split; reflexivity.
  - rewrite ?bind_call. cbn [fst snd app negb ret]. split; reflexivity.
Qed.

(** X17. On either path the shader object that was created is deleted exactly
    once, as the last call; it is attached, once and before that, exactly
    when it compiled; the result tells which. *)
Theorem shader_deleted_exactly_once :
  let shader := glCreateShader_ret env type in
  let run := compile_and_attach_shader env program type source in
  let compiled := negb (compile_status env shader =? GL_FALSE)%Z in
  snd run = Continue compiled /\
  calls "glCreateShader" (fst run) = [Call "glCreateShader" [AEnum type] [AInt shader]] /\
  calls "glAttachShader" (fst run) =
    (if compiled then [Call "glAttachShader" [AInt program; AInt shader] []] else []) /\
  calls "glDeleteShader" (fst run) = [Call "glDeleteShader" [AInt shader] []] /\
  last (fst run) (Call "" [] []) = Call "glDeleteShader" [AInt shader] [].
Proof.
  intros shader run. cbv zeta. destruct compile_trace as [Et Er].
  fold shader in Et, Er. fold run in Et, Er. rewrite Et, Er.
  split; [reflexivity |].
  destruct (compile_status env shader =? GL_FALSE)%Z; cbn [negb].
  - rewrite !calls_app.
    rewrite !(print_lines_only_prints _ (getlines source)) by reflexivity.
    repeat split.
    rewrite !app_assoc. apply last_app_cons.
  - repeat split.
Qed.


End CompileAnySource.

(** ** Lines of a source, hints of a command line *)

Section LinesAndHints.

Lemma getlines_nil (s : string) : getlines s = [] -> s = ""%string.
Proof.
  destruct s as [| ch s]; [reflexivity |]. cbn [getlines].
  destruct (Ascii.eqb ch "010"); [discriminate |].
  destruct (getlines s); discriminate.
Qed.

(** X19. Joining the lines that the listing loop reads gives the source back,
    with a final newline added when the source lacks one; no line contains
    a newline. *)
Theorem getlines_round_trip (s : string) :
  unlines (getlines s) = (if terminated s then s else s ++ String "010" "")%string /\
  Forall (fun l => forall ch, In ch (list_ascii_of_string l) -> ch <> "010"%char)
         (getlines s).
Proof.
  induction s as [| ch s [IH1 IH2]]; [split; [reflexivity | constructor] |].
  cbn [getlines]. destruct (Ascii.eqb ch "010") eqn:E.
  - apply Ascii.eqb_eq in E. subst ch. split.
    + cbn [unlines append]. destruct s as [| a s]; [reflexivity |].
      change (terminated (String "010" (String a s))) with (terminated (String a s)).
      rewrite IH1. destruct (terminated (String a s)); reflexivity.
    + constructor; [intros ch [] | exact IH2].
  - destruct (getlines s) as [| l ls] eqn:El.
    + apply getlines_nil in El. subst s. split.
      * cbn [unlines terminated append]. rewrite E. reflexivity.
      * constructor; [| constructor].
        intros ch' [<- | []]. now apply Ascii.eqb_neq.
    + split.
      * destruct s as [| a s]; [discriminate |].
        change (terminated (String ch (String a s))) with (terminated (String a s)).
        cbn [unlines append] in *. rewrite IH1.
        destruct (terminated (String a s)); reflexivity.
      * inversion IH2 as [| ? ? Hl Hls]; subst. constructor; [| exact Hls].
        intros ch' [<- | Hin]; [now apply Ascii.eqb_neq | now apply Hl].
Qed.

Lemma scan_args_hints (args : list string) :
  fst (scan_args args) = map hint_call (backends args).
Proof.
  induction args as [| a args IH]; [reflexivity |].
  cbn [scan_args backends flat_map]. fold (backends args). unfold init_hint.
  destruct (flag_backend_cases a)
    as [[-> E] | [[-> E] | [[-> E] | [[-> E] | [[-> E] | E]]]]];
    try (rewrite E; cbn [String.eqb Ascii.eqb Bool.eqb];
         rewrite bind_call; cbn [fst app map]; rewrite IH; reflexivity).
  destruct E as (E1 & E2 & E3 & E4 & E5 & E).
  rewrite E1, E2, E3, E4, E5, E, bind_ret. exact IH.
Qed.

(** X20. Backend selection calls [glfwInitHint] once for the Vulkan default and
    once more for each recognized flag after [argv[0]], in order, and calls
    nothing else; an empty [argv] gives the default alone. *)
Theorem select_backend_hints (argv : list string) :
  fst (select_backend argv) = map hint_call (Vulkan :: backends (tl argv)) /\
  snd (select_backend argv) = Continue tt.
Proof.
  split; [| apply select_backend_quiet].
  unfold select_backend, init_hint. rewrite bind_call. cbn [fst map].
  f_equal. destruct argv; apply scan_args_hints.
Qed.

End LinesAndHints.

(** ** The paths through [main] *)

Section MainPaths.

Variable argv : list string.
Variable env : Env.
Variable ins : list FrameInput.

Lemma main_split :
  fst (main argv env ins) = fst (select_backend argv) ++ fst (init_and_run env ins) /\
  snd (main argv env ins) = snd (init_and_run env ins).
Proof.
  unfold main. rewrite (bind_continue _ tt) by apply select_backend_quiet.
  split; reflexivity.
Qed.

Lemma select_backend_only_hints (f : string) :
  String.eqb "glfwInitHint" f = false ->
  calls f (fst (select_backend argv)) = [].
Proof.
  intros Hf. unfold select_backend, init_hint. rewrite bind_call. cbn [fst].
  rewrite scan_args_hints. unfold calls. cbn [filter]. unfold is_call at 1.
  cbn [fn_of]. rewrite Hf.
  induction (backends (skipn 1 argv)) as [| b l IH]; [reflexivity |].
  cbn [map filter]. unfold is_call at 1. cbn [fn_of hint_call]. now rewrite Hf.
Qed.

Ltac eval_setup :=
  cbv beta zeta delta [init_and_run build_and_run compile_and_attach_shader
                       link_program GL_FALSE];
  repeat match goal with
  | E : (_ =? 0)%Z = _ |- _ => rewrite E
  end.

Ltac on_main :=
  destruct main_split as [Emain_t Emain_s];
  unfold exit_status; rewrite ?Emain_t, ?Emain_s;
  rewrite ?stderr_text_app, ?calls_app;
  rewrite ?(proj1 (proj2 (select_backend_quiet argv)));
  rewrite ?select_backend_only_hints by reflexivity;
  clear Emain_t Emain_s.

(** X21. When [glfwInit] fails, [main] prints its message, makes no further
    call and returns 1. *)
Theorem glfw_init_failure :
  glfwInit_ret env = 0%Z ->
  fst (main argv env ins) =
    fst (select_backend argv) ++
    [Call "glfwInit" [] [AInt 0];
     Call "fprintf" [AEnum "stderr"; AStr "Failed to initialize glfw.
"] []] /\
  exit_status (main argv env ins) = 1%Z.
Proof.
  intros E0. on_main. unfold init_and_run. rewrite E0. split; reflexivity.
Qed.

(** X22. When the window cannot be created, [main] shuts GLFW down, then prints
    its message and returns -1; the GL loader is never called. *)
Theorem window_creation_failure :
  glfwInit_ret env <> 0%Z ->
  glfwCreateWindow_ret env = 0%Z ->
  let run := main argv env ins in
  exit_status run = (-1)%Z /\
  stderr_text (fst run) = "Failed to create window.
" /\
  calls "glfwTerminate" (fst run) = [Call "glfwTerminate" [] []] /\
  calls "gladLoadGLES2Loader" (fst run) = [] /\
  exists pre,
    fst run = pre ++ [Call "glfwTerminate" [] [];
                      Call "fprintf" [AEnum "stderr"; AStr "Failed to create window.
"] []].
Proof.
  intros E1%Z.eqb_neq E2 run. subst run.
  repeat match goal with |- _ /\ _ => split end.
  - on_main. eval_setup. rewrite E2. reflexivity.
  - on_main. eval_setup. rewrite E2. reflexivity.
  - on_main. eval_setup. rewrite E2. reflexivity.
  - on_main. eval_setup. rewrite E2. reflexivity.
  - exists (fst (select_backend argv) ++ firstn 8 (fst (init_and_run env ins))).
    on_main. eval_setup. rewrite E2. rewrite <- app_assoc. reflexivity.
Qed.

(** X23. When the GL loader fails, [main] prints its message and returns -1
    without shutting GLFW down and without creating any GL object. *)
Theorem loader_failure :
  glfwInit_ret env <> 0%Z ->
  glfwCreateWindow_ret env <> 0%Z ->
  gladLoadGLES2Loader_ret env = 0%Z ->
  let run := main argv env ins in
  exit_status run = (-1)%Z /\
  stderr_text (fst run) = "Failed to initialize glad.
" /\
  calls "glfwTerminate" (fst run) = [] /\
  calls "glCreateProgram" (fst run) = [] /\
  calls "glGetString" (fst run) = [].
Proof.
  intros E1%Z.eqb_neq E2%Z.eqb_neq E3 run. subst run.
  repeat match goal with |- _ /\ _ => split end;
    on_main; eval_setup; rewrite E3; reflexivity.
Qed.

(** X24. The build stops at the first failure: after a vertex shader that does
    not compile, no fragment shader is created and nothing is attached or
    linked; after a fragment shader that does not compile, nothing is
    linked.  Either way the program object is never used. *)
Theorem build_stops_at_first_failure :
  glfwInit_ret env <> 0%Z ->
  glfwCreateWindow_ret env <> 0%Z ->
  gladLoadGLES2Loader_ret env <> 0%Z ->
  let program := glCreateProgram_ret env in
  let vsh := glCreateShader_ret env "GL_VERTEX_SHADER" in
  let fsh := glCreateShader_ret env "GL_FRAGMENT_SHADER" in
  let t := fst (main argv env ins) in
  (compile_status env vsh = GL_FALSE ->
   calls "glCreateShader" t =
     [Call "glCreateShader" [AEnum "GL_VERTEX_SHADER"] [AInt vsh]] /\
   calls "glAttachShader" t = [] /\
   calls "glLinkProgram" t = [] /\ calls "glUseProgram" t = []) /\
  (compile_status env vsh <> GL_FALSE ->
   compile_status env fsh = GL_FALSE ->
   calls "glCreateShader" t =
     [Call "glCreateShader" [AEnum "GL_VERTEX_SHADER"] [AInt vsh];
      Call "glCreateShader" [AEnum "GL_FRAGMENT_SHADER"] [AInt fsh]] /\
   calls "glAttachShader" t = [Call "glAttachShader" [AInt program; AInt vsh] []] /\
   calls "glLinkProgram" t = [] /\ calls "glUseProgram" t = []).
Proof.
  intros E1%Z.eqb_neq E2%Z.eqb_neq E3%Z.eqb_neq program vsh fsh t.
  subst program vsh fsh t. unfold GL_FALSE. split.
  - intros E4%Z.eqb_eq.
    repeat match goal with |- _ /\ _ => split end;
      on_main; eval_setup; vm_compute; reflexivity.
  - intros E4%Z.eqb_neq E5%Z.eqb_eq.
    repeat match goal with |- _ /\ _ => split end;
      on_main; eval_setup; vm_compute; reflexivity.
Qed.

End MainPaths.

(** ** A run whose setup succeeds *)

Section SuccessfulRun.

Lemma step_quiet (c : Locals) (st : LoopState) (inp : FrameInput) :
  calls "glBufferData" (fst (frame_step c st inp)) = [].
Proof.
  remember (frame_step c st inp) as res eqn:Eres.
  rewrite frame_step_phases in Eres. cbv zeta in Eres.
  unfold report_fps, draw_and_present, resize in Eres.
  destruct (size_changed st inp); cbn [fst snd] in Eres;
    destruct (Qle_bool _ _); cbn [fst snd app] in Eres; subst res;
    vm_compute; reflexivity.
Qed.

Lemma loop_quiet (c : Locals) (ins : list FrameInput) :
  forall st,
  stderr_text (fst (frame_loop c st ins)) = "" /\
  calls "glfwTerminate" (fst (frame_loop c st ins)) = [] /\
  calls "glBufferData" (fst (frame_loop c st ins)) = [].
Proof.
  induction ins as [| inp ins IH]; intros st; [repeat split |].
  destruct (IH (snd (frame_step c st inp))) as (I1 & I2 & I3).
  destruct (step_calls c st inp) as (_ & _ & (_ & S1 & S2)).
  rewrite !calls_frame_loop_cons, I2, I3, S2, step_quiet.
  rewrite frame_loop_cons. cbn [fst].
  change (stderr_text (should_close c 0 :: ?t)) with (stderr_text t).
  rewrite stderr_text_app, I1, S1. repeat split.
Qed.

Variable argv : list string.
Variable env : Env.
Variable ins : list FrameInput.

Ltac eval_setup :=
  cbv beta zeta delta [init_and_run build_and_run compile_and_attach_shader
                       link_program GL_FALSE];
  repeat match goal with
  | E : (_ =? 0)%Z = _ |- _ => rewrite E
  end.

(** With every setup step succeeding, [init_and_run] is a fixed sequence
    of 55 setup calls, the frame loop, and [glfwTerminate]. *)
Lemma setup_then_loop :
  setup_ok env ->
  exists setup,
    init_and_run env ins =
      (setup ++
       fst (frame_loop (locals_of env) (initial_state (now_ret env)) ins) ++
       [Call "glfwTerminate" [] []], Continue tt) /\
    stderr_text setup = "" /\
    calls "glfwTerminate" setup = [] /\
    calls "glDrawArraysInstanced" setup = [] /\
    calls "glBufferData" setup =
      [Call "glBufferData"
            [AEnum "GL_ARRAY_BUFFER"; AInt (n * sizeof_Bubble);
             ABubbles (fst (gen_bubbles (libc_rand env) (Z.to_nat n) 0));
             AEnum "GL_STATIC_DRAW"] []].
Proof.
  intros (E1 & E2 & E3 & E4 & E5 & E6).
  apply Z.eqb_neq in E1, E2, E3, E4, E5, E6. unfold GL_FALSE in *.
  exists (firstn 55 (fst (init_and_run env ins))).
  unfold locals_of. eval_setup.
  generalize (fst (gen_bubbles (libc_rand env) (Z.to_nat n) 0)). intros bubbles.
  generalize (fst (frame_loop
                     (mkLocals (glfwCreateWindow_ret env)
                               (glGetUniformLocation_ret env "window")
                               (glGetUniformLocation_ret env "T")
                               (blitFBO_ret env) (renderFBO_ret env))
                     (initial_state (now_ret env)) ins)).
  intros loop.
  repeat match goal with |- _ /\ _ => split end; vm_compute; reflexivity.
Qed.

(** X25. A run whose setup succeeds returns 0 and writes nothing to [stderr];
    it uploads the generated bubbles exactly once, before the loop, and
    calls [glfwTerminate] exactly once, as its last call, whatever the
    number of frames. *)
Theorem successful_run :
  setup_ok env ->
  let run := main argv env ins in
  exit_status run = 0%Z /\
  stderr_text (fst run) = "" /\
  calls "glBufferData" (fst run) =
    [Call "glBufferData"
          [AEnum "GL_ARRAY_BUFFER"; AInt (n * sizeof_Bubble);
           ABubbles (fst (gen_bubbles (libc_rand env) (Z.to_nat n) 0));
           AEnum "GL_STATIC_DRAW"] []] /\
  calls "glfwTerminate" (fst run) = [Call "glfwTerminate" [] []] /\
  last (fst run) (Call "" [] []) = Call "glfwTerminate" [] [] /\
  exists setup,
    fst run =
      fst (select_backend argv) ++ setup ++
      fst (frame_loop (locals_of env) (initial_state (now_ret env)) ins) ++
      [Call "glfwTerminate" [] []] /\
    calls "glDrawArraysInstanced" setup = [].
Proof.
  intros Hok run. subst run.
  destruct (setup_then_loop Hok) as (setup & Erun & Q1 & Q2 & Q3 & Q4).
  destruct (main_split argv env ins) as [Et Es].
  destruct (loop_quiet (locals_of env) ins (initial_state (now_ret env)))
    as (L1 & L2 & L3).
  unfold exit_status. rewrite Et, Es, Erun. cbn [fst snd].
  rewrite !stderr_text_app, !calls_app, Q1, Q2, Q4, L1, L2, L3.
  rewrite (proj1 (proj2 (select_backend_quiet argv))).
  rewrite !(select_backend_only_hints argv) by reflexivity.
  repeat match goal with |- _ /\ _ => split end; try reflexivity.
  - rewrite !app_assoc. apply last_app_cons.
  - exists setup. split; [reflexivity | exact Q3].
Qed.

End SuccessfulRun.

(** ** Instances *)



Lemma glfw_init_failure_witness :
  fst (main ["bubbles"; "--gl"] (sample_env_init 0 77 1) []) =
    fst (select_backend ["bubbles"; "--gl"]) ++
    [Call "glfwInit" [] [AInt 0];
     Call "fprintf" [AEnum "stderr"; AStr "Failed to initialize glfw.
"] []] /\
  exit_status (main ["bubbles"; "--gl"] (sample_env_init 0 77 1) []) = 1%Z.
Proof.
  apply (glfw_init_failure ["bubbles"; "--gl"] (sample_env_init 0 77 1) []).
  reflexivity.
Defined.

Lemma window_creation_failure_witness :
  let run := main ["bubbles"] (sample_env_init 1 0 1) [] in
  exit_status run = (-1)%Z /\
  stderr_text (fst run) = "Failed to create window.
" /\
  calls "glfwTerminate" (fst run) = [Call "glfwTerminate" [] []].
Proof.
  cbv zeta.
  pose proof (window_creation_failure ["bubbles"] (sample_env_init 1 0 1) []) as Hw.
  cbv zeta in Hw.
  destruct Hw as (H1 & H2 & H3 & _); [discriminate | reflexivity |].
  exact (conj H1 (conj H2 H3)).
Defined.

Lemma loader_failure_witness :
  let run := main ["bubbles"] (sample_env_init 1 77 0) [] in
  exit_status run = (-1)%Z /\
  stderr_text (fst run) = "Failed to initialize glad.
" /\
  calls "glfwTerminate" (fst run) = [].
Proof.
  cbv zeta.
  pose proof (loader_failure ["bubbles"] (sample_env_init 1 77 0) []) as Hl.
  cbv zeta in Hl.
  destruct Hl as (H1 & H2 & H3 & _); [discriminate | discriminate | reflexivity |].
  exact (conj H1 (conj H2 H3)).
Defined.

Lemma build_stops_at_first_failure_witness :
  let t := fst (main ["bubbles"] (sample_env 0 1 1) []) in
  calls "glCreateShader" t = [Call "glCreateShader" [AEnum "GL_VERTEX_SHADER"] [AInt 4]] /\
  calls "glLinkProgram" t = [].
Proof.
  cbv zeta.
  pose proof (build_stops_at_first_failure ["bubbles"] (sample_env 0 1 1) []) as Hb.
  cbv zeta in Hb.
  destruct Hb as [Hv _]; [discriminate | discriminate | discriminate |].
  destruct (Hv eq_refl) as (H1 & _ & H3 & _).
  exact (conj H1 H3).
Defined.

Lemma successful_run_witness :
  let run := main ["bubbles"; "--mtl"] (sample_env 1 1 1)
                  [mkFrameInput 640 480 9 (1 # 2); mkFrameInput 640 480 9 1] in
  exit_status run = 0%Z /\
  stderr_text (fst run) = "" /\
  calls "glfwTerminate" (fst run) = [Call "glfwTerminate" [] []].
Proof.
  cbv zeta.
  pose proof (successful_run ["bubbles"; "--mtl"] (sample_env 1 1 1)
                [mkFrameInput 640 480 9 (1 # 2); mkFrameInput 640 480 9 1]) as Hs.
  cbv zeta in Hs.
  destruct Hs as (H1 & H2 & _ & H4 & _).
  - unfold setup_ok. repeat split; discriminate.
  - exact (conj H1 (conj H2 H4)).
Defined.

(** ** The guard of the frame-rate report *)

(** X26. A rate is printed only once two seconds or more have passed since the
    last report, so the division never has a zero divisor; the rate printed
    is frames / seconds, positive, and at most half the number of frames
    counted. *)
Theorem fps_report_guarded (c : Locals) (st : LoopState) (inp : FrameInput)
    (v : double) :
  (0 <= frames st < INT_MAX)%Z ->
  In v (fps_reports (fst (frame_step c st inp))) ->
  let seconds := now_end inp - start st in
  let counted := float_of_int (frames st + 1) in
  2 <= seconds /\ v = counted / seconds /\ 0 < v /\ v <= counted / 2.
Proof.
  intros Hf Hin seconds counted.
  destruct (frame_step_report c st inp) as (Hr & _ & _). cbv zeta in Hr.
  fold seconds in Hr. rewrite Hr in Hin.
  destruct (Qle_bool 2 seconds) eqn:E; [| destruct Hin].
  apply Qle_bool_iff in E. destruct Hin as [<- | []].
  rewrite wrap_int_small by (unfold INT_MIN, INT_MAX in *; lia).
  fold counted.
  assert (Hc : 1 <= counted).
  { unfold counted, float_of_int. change 1 with (inject_Z 1).
    rewrite <- Zle_Qle. lia. }
  assert (Hs : 0 < seconds) by lra.
  repeat split; [exact E | |].
  - apply Qlt_shift_div_l; [exact Hs | lra].
  - apply Qle_shift_div_r; [exact Hs |].
    assert (Ehalf : counted / 2 == counted * (1 # 2)) by field.
    rewrite Ehalf. nra.
Qed.

Lemma fps_report_guarded_witness :
  let st := mkLoopState 9 100 59 10 640 480 in
  let inp := mkFrameInput 640 480 9 (25 # 2) in
  2 <= (25 # 2) - 10 /\
  float_of_int 60 / ((25 # 2) - 10) = float_of_int (59 + 1) / ((25 # 2) - 10) /\
  0 < float_of_int 60 / ((25 # 2) - 10) /\
  float_of_int 60 / ((25 # 2) - 10) <= float_of_int (59 + 1) / 2.
Proof.
  cbv zeta.
  apply (fps_report_guarded sample_locals (mkLoopState 9 100 59 10 640 480)
           (mkFrameInput 640 480 9 (25 # 2)) (float_of_int 60 / ((25 # 2) - 10))).
  - vm_compute. split; [discriminate | reflexivity].
  - vm_compute. left. reflexivity.
Defined.
